(** * LineCook: the document store and its optimistic-concurrency protocol

    A shallow embedding of [server.py]: the JSON values the handlers
    manipulate, the Python built-ins they call, the file-system and clock
    operations they perform, and the handlers themselves, written once as
    programs over those operations.  The programs are given a sequential
    semantics ([run]) and an interleaving one ([run_schedule]), the latter
    because the server is a [ThreadingHTTPServer]: one thread per request. *)

From Stdlib Require Import ZArith String Ascii List Lia.
From Stdlib Require Import Floats.SpecFloat.
From stdpp Require Import base option gmap strings list.

Set Warnings "-register-all".

Open Scope Z_scope.
Open Scope string_scope.

(** ** JSON values

    What [json.load] and [json.loads] return: [None], [bool], [int] (unbounded),
    [float] (an IEEE double), [str], [list] and [dict] with string keys.  A
    Python dict compares by content, whatever the insertion order, which is the
    equality of [gmap].  The limits of an interpreter (its recursion depth, the
    digits it allows an [int] in text, its memory) are not modelled. *)

Inductive json : Type :=
| JNull
| JBool (b : bool)
| JInt (n : Z)
| JFloat (f : spec_float)
| JStr (s : string)
| JList (l : list json)
| JDict (d : gmap string json).

(** A dict display [{k1: v1, ..., kn: vn}]: later entries win. *)
Definition dict (l : list (string * json)) : json :=
  JDict (list_to_map (rev l)).

(** ** Strings and what UTF-8 can carry

    A Python str is a sequence of code points and may hold surrogates
    (U+D800 to U+DFFF): [json.loads] returns one for an escape such as
    ["\ud800"] that has no partner.  A str is modelled by its UTF-8 bytes, a
    surrogate by the three bytes ED, A0..BF, 80..BF that the [surrogatepass]
    handler gives it; in the UTF-8 of any other code point ED is followed by
    80..9F.  Encoding a str as UTF-8, which is what writing it to a file
    opened with [encoding="utf-8"] does, raises [UnicodeEncodeError] exactly
    when it holds a surrogate. *)

Definition is_surrogate_start (c d : ascii) : bool :=
  N.eqb (N_of_ascii c) 237 && N.leb 160 (N_of_ascii d) && N.leb (N_of_ascii d) 191.

Fixpoint has_surrogate (s : string) : bool :=
  match s with
  | String c (String d _ as rest) => is_surrogate_start c d || has_surrogate rest
  | _ => false
  end.

(** [json.dump(v, f, ensure_ascii=False)] to a UTF-8 file goes through: no
    str in [v], key or value, holds a surrogate.  With [ensure_ascii=False]
    the strs are written as they are, not escaped. *)
Fixpoint encodable (v : json) : bool :=
  match v with
  | JNull | JBool _ | JInt _ | JFloat _ => true
  | JStr s => negb (has_surrogate s)
  | JList l => forallb encodable l
  | JDict d =>
      map_fold (fun k x rest => negb (has_surrogate k) && encodable x && rest)
        true d
  end.
Arguments encodable : simpl never.

(** ** Exceptions and results *)

Inductive pyerr : Type :=
| AttributeError
| TypeError
| ValueError
| OverflowError
| FileNotFoundError
| JSONDecodeError
| UnicodeEncodeError.

(** [ApiError] is the dataclass of the source; every other exception the
    handlers can meet is a [PyError]. *)
Inductive exn : Type :=
| ApiError (status : Z) (message : string)
| PyError (e : pyerr).

Inductive result (A : Type) : Type :=
| Ok (a : A)
| Raise (e : exn).
Arguments Ok {A} a.
Arguments Raise {A} e.

Definition result_bind {A B} (r : result A) (k : A -> result B) : result B :=
  match r with
  | Ok a => k a
  | Raise e => Raise e
  end.

(** ** Python built-ins used by the handlers *)

(** [isinstance(v, int)]: [bool] is a subclass of [int]. *)
Definition isinstance_int (v : json) : bool :=
  match v with
  | JInt _ | JBool _ => true
  | _ => false
  end.

(** [isinstance(v, dict)]. *)
Definition isinstance_dict (v : json) : bool :=
  match v with
  | JDict _ => true
  | _ => false
  end.

(** The number an instance of [int] stands for: [True] is 1, [False] is 0. *)
Definition int_value (v : json) : option Z :=
  match v with
  | JInt n => Some n
  | JBool b => Some (if b then 1 else 0)
  | _ => None
  end.

(** [int(f)] for a float: truncation toward zero; infinities and NaN raise. *)
Definition int_of_float (f : spec_float) : result Z :=
  match f with
  | S754_zero _ => Ok 0
  | S754_infinity _ => Raise (PyError OverflowError)
  | S754_nan => Raise (PyError ValueError)
  | S754_finite s m e =>
      let a := Z.shiftl (Z.pos m) e in
      Ok (if s then - a else a)
  end.

(** [bool(v)]: the truth value [not] tests. *)
Definition truthy (v : json) : bool :=
  match v with
  | JNull => false
  | JBool b => b
  | JInt n => negb (Z.eqb n 0)
  | JFloat (S754_zero _) => false
  | JFloat _ => true
  | JStr s => negb (Nat.eqb (String.length s) 0)
  | JList l => negb (Nat.eqb (List.length l) 0)
  | JDict d => negb (Nat.eqb (size d) 0)
  end.

(** [o.get(k, default)]: only a dict has the method. *)
Definition py_get (o : json) (k : string) (dflt : json) : result json :=
  match o with
  | JDict d => Ok (default dflt (d !! k))
  | _ => Raise (PyError AttributeError)
  end.

(** [iter(v)], as the list comprehension of [_handle_get_inprogress] walks
    it: a list yields its items, a str its characters (each a str), a dict its
    keys; the other JSON values are not iterable. *)
Definition py_iter (v : json) : result (list json) :=
  match v with
  | JList l => Ok l
  | JStr s => Ok (map (fun c => JStr (String c EmptyString)) (list_ascii_of_string s))
  | JDict d => Ok (map (fun kv => JStr (fst kv)) (map_to_list d))
  | JNull | JBool _ | JInt _ | JFloat _ => Raise (PyError TypeError)
  end.

(** ** The clock

    [datetime.now(timezone.utc)] and its [isoformat(timespec="seconds")]:
    [YYYY-MM-DDTHH:MM:SS+00:00], the microseconds dropped. *)

Record datetime : Type := DateTime {
  year : N; month : N; day : N;
  hour : N; minute : N; second : N;
  microsecond : N
}.

Definition digit (n : N) : ascii := ascii_of_N (48 + n mod 10)%N.

(** ["%02d" % n] and ["%04d" % n], for [n] below 100 and 10000. *)
Definition pad2 (n : N) : string :=
  String (digit (n / 10)) (String (digit n) EmptyString).

Definition pad4 (n : N) : string :=
  String (digit (n / 1000)) (String (digit (n / 100)) (pad2 n)).

Definition isoformat_seconds (t : datetime) : string :=
  pad4 (year t) +:+ "-" +:+ pad2 (month t) +:+ "-" +:+ pad2 (day t) +:+ "T" +:+
  pad2 (hour t) +:+ ":" +:+ pad2 (minute t) +:+ ":" +:+ pad2 (second t) +:+ "+00:00".

(** ** The world a request runs in

    [doc_file] is the content of [data/doc.json] ([None]: the file does not
    exist), [tmp_file] that of [data/doc.json.tmp].  Both are only ever written
    by [json.dump]: a file holds the text of a JSON value, or the beginning of
    one when the dump broke off, which no [json.load] accepts.  The clock is
    read by successive calls: the [n]-th reading is [clock n].  [fs_log]
    records the accesses to the store, oldest first. *)

Inductive content : Type :=
| Json (j : json)   (* the complete text of [j] *)
| Truncated.        (* what a dump that raised left behind *)

Inductive fs_event : Type :=
| EvMkdir
| EvExists
| EvRead
| EvWriteTmp (data : json)
| EvReplace.

Record world : Type := World {
  doc_file : option content;
  tmp_file : option content;
  clock : nat -> datetime;
  ticks : nat;
  fs_log : list fs_event
}.

Definition log (ev : fs_event) (w : world) : world :=
  World (doc_file w) (tmp_file w) (clock w) (ticks w) (fs_log w ++ [ev]).

(** The operations on the world, each one indivisible; the dump to the
    temporary file, whether it goes through or breaks off, is taken as one of
    them. *)
Inductive op : Type -> Type :=
| Mkdir : op unit                 (* DATA_DIR.mkdir(parents=True, exist_ok=True) *)
| Exists : op bool                (* DOC_PATH.exists() *)
| ReadDoc : op (result json)      (* open DOC_PATH and json.load it *)
| WriteTmp (data : json) : op (result unit) (* open the temporary file, json.dump *)
| Replace : op (result unit)      (* os.replace(tmp_path, path) *)
| Now : op datetime.              (* datetime.now(timezone.utc) *)

Definition exec_op {X} (o : op X) (w : world) : X * world :=
  match o in op X return X * world with
  | Mkdir => (tt, log EvMkdir w)
  | Exists => (bool_decide (is_Some (doc_file w)), log EvExists w)
  | ReadDoc =>
      (match doc_file w with
       | Some (Json j) => Ok j
       | Some Truncated => Raise (PyError JSONDecodeError)
       | None => Raise (PyError FileNotFoundError)
       end, log EvRead w)
  | WriteTmp data =>
      if encodable data then
        (Ok tt, log (EvWriteTmp data)
                  (World (doc_file w) (Some (Json data)) (clock w) (ticks w)
                     (fs_log w)))
      else
        (Raise (PyError UnicodeEncodeError),
         log (EvWriteTmp data)
           (World (doc_file w) (Some Truncated) (clock w) (ticks w) (fs_log w)))
  | Replace =>
      match tmp_file w with
      | Some data =>
          (Ok tt, log EvReplace
                    (World (Some data) None (clock w) (ticks w) (fs_log w)))
      | None => (Raise (PyError FileNotFoundError), log EvReplace w)
      end
  | Now =>
      (clock w (ticks w),
       World (doc_file w) (tmp_file w) (clock w) (S (ticks w)) (fs_log w))
  end.

(** ** Programs over the operations *)

Inductive prog (A : Type) : Type :=
| Ret (a : A)
| Throw (e : exn)
| Do {X : Type} (o : op X) (k : X -> prog A).
Arguments Ret {A} a.
Arguments Throw {A} e.
Arguments Do {A X} o k.

Fixpoint bind {A B} (m : prog A) (f : A -> prog B) : prog B :=
  match m with
  | Ret a => f a
  | Throw e => Throw e
  | Do o k => Do o (fun x => bind (k x) f)
  end.

(** [try: m except ... as e: h e]. *)
Fixpoint catch {A} (m : prog A) (h : exn -> prog A) : prog A :=
  match m with
  | Ret a => Ret a
  | Throw e => h e
  | Do o k => Do o (fun x => catch (k x) h)
  end.

Definition lift {A} (r : result A) : prog A :=
  match r with
  | Ok a => Ret a
  | Raise e => Throw e
  end.

Definition perform {X} (o : op X) : prog X := Do o Ret.

Declare Scope prog_scope.
Delimit Scope prog_scope with prog.
Notation "x <- m ;; k" := (bind m (fun x => k))
  (at level 100, m at next level, right associativity) : prog_scope.
Notation "m ;; k" := (bind m (fun _ => k))
  (at level 100, right associativity) : prog_scope.
Open Scope prog_scope.

(** Sequential semantics: the program runs to its end, alone. *)
Fixpoint run {A} (m : prog A) (w : world) : result A * world :=
  match m with
  | Ret a => (Ok a, w)
  | Throw e => (Raise e, w)
  | Do o k => let '(x, w') := exec_op o w in run (k x) w'
  end.

(** ** Requests and responses *)

(** What [_read_body_json] finds on the wire: no body (no or zero
    [Content-Length], or no bytes), a body it cannot read as text (a
    [Content-Length] that is no number, bytes that are not UTF-8: both a
    [ValueError]), text that is not JSON, or a JSON value. *)
Inductive raw_body : Type :=
| BodyEmpty
| BodyUnreadable
| BodyNotJson
| BodyJson (j : json).

(** What [_send_json] and [_send_text] put on the wire. *)
Inductive response : Type :=
| JsonResponse (status : Z) (payload : json)
| TextResponse (status : Z) (text : string).

Definition status_of (r : response) : Z :=
  match r with
  | JsonResponse s _ | TextResponse s _ => s
  end.

(** [_send_json] encodes its payload as UTF-8 before it writes it.  The
    payloads the handlers send are constants, a Document that [json.dump] has
    just written, or a value [json.load] has read from [doc.json], and what a
    file holds went through a dump: the encoding has nothing to refuse. *)
Definition send_json (status : Z) (payload : json) : prog response :=
  Ret (JsonResponse status payload).

Definition send_text (status : Z) (text : string) : prog response :=
  Ret (TextResponse status text).

(** ** The store *)

Definition utc_now_iso : prog string :=
  t <- perform Now ;; Ret (isoformat_seconds t).

Definition read_json : prog json :=
  r <- perform ReadDoc ;; lift r.

(** [_write_json_atomic]: the dump to [doc.json.tmp], then [os.replace].  A
    dump that raises leaves the temporary file behind; the replace is not
    reached. *)
Definition write_json_atomic (data : json) : prog unit :=
  dumped <- perform (WriteTmp data) ;;
  lift dumped ;;
  replaced <- perform Replace ;;
  lift replaced.

Definition seed_tasks : list json :=
  [ dict [ ("id", JStr "t1");
           ("title", JStr "Example task 2025-12-16 3d");
           ("done", JBool false);
           ("collapsed", JBool false);
           ("parentId", JNull);
           ("order", JInt 0);
           ("start", JNull);
           ("end", JNull) ];
    dict [ ("id", JStr "t2");
           ("title", JStr "Subtask 2025-12-18");
           ("done", JBool false);
           ("collapsed", JBool false);
           ("parentId", JStr "t1");
           ("order", JInt 0);
           ("start", JNull);
           ("end", JNull) ] ].

(** A Document: [{"revision": r, "updatedAt": t, "doc": d}]. *)
Definition document (r : Z) (t : string) (d : json) : json :=
  dict [ ("revision", JInt r); ("updatedAt", JStr t); ("doc", d) ].

Definition seed (now : string) : json :=
  document 0 now (dict [ ("tasks", JList seed_tasks) ]).

Arguments dict : simpl never.
Arguments document : simpl never.
Arguments seed : simpl never.

Definition ensure_seed_doc : prog unit :=
  perform Mkdir ;;
  e <- perform Exists ;;
  if e : bool then Ret tt
  else
    now <- utc_now_iso ;;
    write_json_atomic (seed now).

(** ** The handlers *)

Definition read_body_json (req : raw_body) : prog json :=
  match req with
  | BodyEmpty => Throw (ApiError 400 "Missing request body")
  | BodyUnreadable => Throw (PyError ValueError)
  | BodyNotJson => Throw (ApiError 400 "Invalid JSON")
  | BodyJson j => Ret j
  end.

(** The list comprehension [[t for t in tasks if not t.get("done")]]. *)
Fixpoint inprogress_of (tasks : list json) : result (list json) :=
  match tasks with
  | [] => Ok []
  | t :: rest =>
      result_bind (py_get t "done" JNull) (fun done =>
      result_bind (inprogress_of rest) (fun rest' =>
      Ok (if truthy done then rest' else t :: rest')))
  end.

Definition handle_get_doc : prog response :=
  ensure_seed_doc ;;
  payload <- read_json ;;
  send_json 200 payload.

Definition handle_get_inprogress : prog response :=
  ensure_seed_doc ;;
  payload <- read_json ;;
  doc <- lift (py_get payload "doc" (JDict ∅)) ;;
  tasks <- lift (py_get doc "tasks" (JList [])) ;;
  items <- lift (py_iter tasks) ;;
  inprogress <- lift (inprogress_of items) ;;
  send_json 200 (JList inprogress).

(** The [try ... except ApiError ... except Exception] of [do_GET] and
    [do_PUT]. *)
Definition handle_errors (m : prog response) : prog response :=
  catch m (fun e =>
    match e with
    | ApiError status message =>
        if Z.leb 500 status then send_text 500 "Server error"
        else send_json status (dict [ ("error", JStr message) ])
    | PyError _ => send_text 500 "Server error"
    end).

Section Server.

(** [int(s)] for a str is Python's own parser of integer literals
    ([None]: it raises [ValueError]); it is taken as given. *)
Variable int_of_str : string -> option Z.

(** [int(v)]. *)
Definition py_int (v : json) : result Z :=
  match v with
  | JInt n => Ok n
  | JBool b => Ok (if b then 1 else 0)
  | JFloat f => int_of_float f
  | JStr s =>
      match int_of_str s with
      | Some n => Ok n
      | None => Raise (PyError ValueError)
      end
  | JNull | JList _ | JDict _ => Raise (PyError TypeError)
  end.

(** [base_revision != current_rev], for an instance of [int] on the left. *)
Definition int_ne (base_revision : json) (current_rev : Z) : bool :=
  match int_value base_revision with
  | Some n => negb (Z.eqb n current_rev)
  | None => true
  end.

(** [int(current.get("revision", 0))]. *)
Definition current_revision (current : json) : result Z :=
  result_bind (py_get current "revision" (JInt 0)) py_int.

Definition handle_put_doc (req : raw_body) : prog response :=
  ensure_seed_doc ;;
  current <- read_json ;;
  body <- read_body_json req ;;
  base_revision <- lift (py_get body "baseRevision" JNull) ;;
  incoming_doc <- lift (py_get body "doc" JNull) ;;
  if negb (isinstance_int base_revision) then
    Throw (ApiError 400 "baseRevision must be an integer")
  else if negb (isinstance_dict incoming_doc) then
    Throw (ApiError 400 "doc must be an object")
  else
    current_rev <- lift (current_revision current) ;;
    if int_ne base_revision current_rev then
      send_json 409 (dict [ ("error", JStr "conflict"); ("current", current) ])
    else
      now <- utc_now_iso ;;
      let next_payload := document (current_rev + 1) now incoming_doc in
      write_json_atomic next_payload ;;
      send_json 200 next_payload.

(** [do_PUT], on the path already parsed and unquoted. *)
Definition do_PUT (path : string) (req : raw_body) : prog response :=
  handle_errors
    (if String.eqb path "/api/doc" then handle_put_doc req
     else Throw (ApiError 404 "Not found")).

(** Serving static files is the transport's business: it is taken as
    given. *)
Variable serve_static_file : string -> prog response.

(** [do_GET], on the path already parsed and unquoted. *)
Definition do_GET (path : string) : prog response :=
  handle_errors
    (if String.eqb path "/api/health" then
       send_json 200 (dict [ ("ok", JBool true) ])
     else if String.eqb path "/api/doc" then handle_get_doc
     else if String.eqb path "/api/tasks/inprogress" then handle_get_inprogress
     else if String.eqb path "/" then serve_static_file "index.html"
     else if String.prefix "/static/" path then
       serve_static_file (String.substring 8 (String.length path - 8) path)
     else if String.prefix "/" path && Nat.ltb 1 (String.length path)
               && negb (bool_decide (is_Some (String.index 1 "/" path))) then
       serve_static_file (String.substring 1 (String.length path - 1) path)
     else Throw (ApiError 404 "Not found")).

(** ** Requests served one after the other *)

Inductive request : Type :=
| GetDocument
| ProposeUpdate (req : raw_body)
| GetInProgress.

Definition serve (rq : request) : prog response :=
  match rq with
  | GetDocument => do_GET "/api/doc"
  | ProposeUpdate req => do_PUT "/api/doc" req
  | GetInProgress => do_GET "/api/tasks/inprogress"
  end.

(** The requests of [rqs] served in turn, each to its end before the next
    starts: the exchanges, and the world left behind. *)
Fixpoint serve_all (rqs : list request) (w : world)
  : list (request * result response) * world :=
  match rqs with
  | [] => ([], w)
  | rq :: rest =>
      let '(r, w1) := run (serve rq) w in
      let '(log, w2) := serve_all rest w1 in
      ((rq, r) :: log, w2)
  end.

(** An accepted write: a propose-update answered with the success status. *)
Definition accepted (x : request * result response) : bool :=
  match x with
  | (ProposeUpdate _, Ok (JsonResponse 200 _)) => true
  | _ => false
  end.

Definition accepted_writes (log : list (request * result response)) : nat :=
  length (List.filter accepted log).

(** The revision a reader of the store would find. *)
Definition stored_revision (w : world) : option Z :=
  match doc_file w with
  | Some (Json current) =>
      match current_revision current with
      | Ok r => Some r
      | Raise _ => None
      end
  | Some Truncated | None => None
  end.

End Server.

(** ** Requests served concurrently

    [ThreadingHTTPServer] gives every request a thread; the threads share the
    world and nothing in the source orders them.  A schedule names, step
    after step, the thread that performs its next operation. *)

Definition step {A} (m : prog A) (w : world) : prog A * world :=
  match m with
  | Do o k => let '(x, w') := exec_op o w in (k x, w')
  | Ret _ | Throw _ => (m, w)
  end.

Record system : Type := System {
  shared : world;
  threads : list (prog response)
}.

Definition schedule_step (s : system) (i : nat) : system :=
  match threads s !! i with
  | Some m =>
      let '(m', w') := step m (shared s) in
      System w' (<[i := m']> (threads s))
  | None => s
  end.

Definition run_schedule (sched : list nat) (s : system) : system :=
  fold_left schedule_step sched s.

(** [n] steps of one thread on its own. *)
Fixpoint steps {A} (n : nat) (m : prog A) (w : world) : prog A * world :=
  match n with
  | O => (m, w)
  | S n' => let '(m', w') := step m w in steps n' m' w'
  end.

(** The number of operations [m] performs when it runs alone from [w]. *)
Fixpoint ops {A} (m : prog A) (w : world) : nat :=
  match m with
  | Do o k => let '(x, w') := exec_op o w in S (ops (k x) w')
  | Ret _ | Throw _ => O
  end.

(** ** The in-progress view, as the specification words it *)





(** ** Notions the statements use *)

(** The world [w] with [evs] appended to its log. *)
Definition logged (evs : list fs_event) (w : world) : world :=
  World (doc_file w) (tmp_file w) (clock w) (ticks w) (fs_log w ++ evs).

(** Two readings of the clock within the same second. *)
Definition same_second (t t' : datetime) : Prop :=
  year t = year t' /\ month t = month t' /\ day t = day t' /\
  hour t = hour t' /\ minute t = minute t' /\ second t = second t'.

(** The revision a response carries at the top of its payload. *)
Definition response_revision (r : result response) : option Z :=
  match r with
  | Ok (JsonResponse _ payload) =>
      match py_get payload "revision" JNull with
      | Ok (JInt n) => Some n
      | _ => None
      end
  | _ => None
  end.

(** The revisions the accepted writes of a log were answered with, in the
    order of the requests. *)
Definition committed_revisions (log : list (request * result response))
  : list Z :=
  omap (fun x => if accepted x then response_revision (snd x) else None) log.

(** ** Sample inputs *)

(** The plain decimal literals among the strings [int] accepts: an optional
    sign and ASCII digits.  One instance of the parser [Server] abstracts. *)
Definition digit_value (c : ascii) : option Z :=
  let n := Z.of_N (N_of_ascii c) in
  if Z.leb 48 n && Z.leb n 57 then Some (n - 48) else None.

Fixpoint digits_value (acc : Z) (s : string) : option Z :=
  match s with
  | EmptyString => Some acc
  | String c s' =>
      match digit_value c with
      | Some d => digits_value (10 * acc + d) s'
      | None => None
      end
  end.

Definition decimal_int_of_str (s : string) : option Z :=
  match s with
  | EmptyString => None
  | String c s' =>
      if Ascii.eqb c "-" then
        match s' with
        | EmptyString => None
        | _ => option_map Z.opp (digits_value 0 s')
        end
      else if Ascii.eqb c "+" then
        match s' with
        | EmptyString => None
        | _ => digits_value 0 s'
        end
      else digits_value 0 s
  end.

(** A transport with no static files. *)
Definition no_static_files (path : string) : prog response :=
  Throw (ApiError 404 "Not found").

(** A clock that ticks once a second from 2025-12-16T09:05:00. *)
Definition sample_clock (n : nat) : datetime :=
  DateTime 2025 12 16 9 5 (N.of_nat n mod 60) 123456.

(** Its first three readings, formatted. *)
Definition at_0 : string := "2025-12-16T09:05:00+00:00".
Definition at_1 : string := "2025-12-16T09:05:01+00:00".
Definition at_2 : string := "2025-12-16T09:05:02+00:00".

(** A store nobody has used yet. *)
Definition empty_world : world := World None None sample_clock 0 [].

(** A store holding the seed Document. *)
Definition seeded_world : world :=
  World (Some (Json (seed at_0))) None sample_clock 1 [].

(** Three tasks: one done, one not, one that does not say. *)
Definition task_a : json := dict [ ("id", JStr "a"); ("done", JBool true) ].
Definition task_b : json :=
  dict [ ("id", JStr "b"); ("done", JBool false); ("collapsed", JBool true) ].

(** Payloads with no task, one task, three tasks. *)
Definition no_tasks : gmap string json := {[ "tasks" := JList [] ]}.
Definition one_task : gmap string json := {[ "tasks" := JList [ task_a ] ]}.


(** A stored payload with no [doc] at all. *)
Definition bare_world : world :=
  World (Some (Json (dict [ ("revision", JInt 3) ]))) None sample_clock 0 [].

(** The body [{"baseRevision": b, "doc": d}]. *)
Definition update_fields (b : json) (d : json) : gmap string json :=
  <["doc" := d]> {[ "baseRevision" := b ]}.

Definition update (b : json) (d : json) : raw_body :=
  BodyJson (JDict (update_fields b d)).

(** ** Two sentences of the specification, as they read on the model *)

(** A propose-update is turned down before the store is touched: the request
    is answered 400 and the world, log of store accesses included, is as it
    was. *)
Definition rejected_before_store (int_of_str : string -> option Z)
    (w : world) (req : raw_body) : Prop :=
  exists msg,
    run (do_PUT int_of_str "/api/doc" req) w =
    (Ok (JsonResponse 400 (dict [ ("error", JStr msg) ])), w).

(** No update is lost: whatever the schedule, when two propose-updates on the
    stored revision have both been answered, one has committed and the other
    has met a conflict. *)
Definition no_lost_update (int_of_str : string -> option Z) : Prop :=
  forall (sched : list nat) (w w' : world) (cur : json) (r : Z)
         (d1 d2 : gmap string json) (r1 r2 : response),
    doc_file w = Some (Json cur) ->
    current_revision int_of_str cur = Ok r ->
    run_schedule sched
      (System w [ do_PUT int_of_str "/api/doc" (update (JInt r) (JDict d1));
                  do_PUT int_of_str "/api/doc" (update (JInt r) (JDict d2)) ]) =
    System w' [ Ret r1; Ret r2 ] ->
    (status_of r1 = 200 /\ status_of r2 = 409) \/
    (status_of r1 = 409 /\ status_of r2 = 200).

(** ** The in-progress test, as the code applies it *)

(** [t.get("done")] on an object. *)
Definition done_value (t : json) : json :=
  match t with
  | JDict m => default JNull (m !! "done")
  | _ => JNull
  end.

(** [not t.get("done")]. *)
Definition in_progress (t : json) : bool := negb (truthy (done_value t)).

(** ** Notions for concurrent requests *)



(** ** The range of a [datetime] *)

Definition valid_datetime (t : datetime) : Prop :=
  (1 <= year t <= 9999)%N /\ (1 <= month t <= 12)%N /\ (1 <= day t <= 31)%N /\
  (hour t <= 23)%N /\ (minute t <= 59)%N /\ (second t <= 59)%N.

(** ** Stored values off the data model *)

(** When [int(current.get("revision", 0))] raises. *)
Definition unreadable_revision (cur : json) : Prop :=
  isinstance_dict cur = false \/
  exists c v, cur = JDict c /\ c !! "revision" = Some v /\
    (v = JNull \/ (exists l, v = JList l) \/ (exists d, v = JDict d) \/
     v = JFloat S754_nan \/ (exists s, v = JFloat (S754_infinity s))).

(** ** Further sample inputs *)

(** Tasks whose [done] is not a boolean. *)
Definition task_zero : json := dict [ ("id", JStr "z"); ("done", JInt 0) ].
Definition task_null : json := dict [ ("id", JStr "n"); ("done", JNull) ].
Definition task_text : json := dict [ ("id", JStr "s"); ("done", JStr "false") ].
Definition task_blank : json := dict [ ("id", JStr "e"); ("done", JStr "") ].

Definition loose_tasks : gmap string json :=
  {[ "tasks" := JList [ task_zero; task_text; task_null; task_blank; task_a ] ]}.


Definition mixed_world : world :=
  World (Some (Json (document 2 at_0
                       (JDict {[ "tasks" := JList [ task_b; JStr "c" ] ]}))))
    None sample_clock 1 [].

Definition text_tasks_world : world :=
  World (Some (Json (document 2 at_0 (JDict {[ "tasks" := JStr "" ]}))))
    None sample_clock 1 [].


Definition list_world : world :=
  World (Some (Json (JList []))) None sample_clock 1 [].

(** A body with a field the handler does not know. *)
Definition update_with_note (b : json) (d : json) : gmap string json :=
  <["note" := JStr "hello"]> (update_fields b d).

(** ** Counting the writes *)

(** The store-relevant part of [main]: the call of [_ensure_seed_doc]
    before the server starts. *)
Definition startup : prog unit := ensure_seed_doc.

Definition is_replace (ev : fs_event) : bool :=
  match ev with
  | EvReplace => true
  | _ => false
  end.

(** The number of times [os.replace] has put a file in place. *)
Definition replaces (l : list fs_event) : nat :=
  length (List.filter is_replace l).

(** ** Reading a timestamp back *)

Definition digit_of (c : ascii) : option N :=
  let n := N_of_ascii c in
  if N.leb 48 n && N.leb n 57 then Some (n - 48)%N else None.

Fixpoint number_of (acc : N) (s : string) : option N :=
  match s with
  | EmptyString => Some acc
  | String c s' =>
      match digit_of c with
      | Some d => number_of (10 * acc + d)%N s'
      | None => None
      end
  end.

(** The moment a text of the form [YYYY-MM-DDTHH:MM:SS+00:00] names: a UTC
    time with no fraction of a second. *)
Definition read_timestamp (s : string) : option datetime :=
  let field (i n : nat) := number_of 0%N (String.substring i n s) in
  if String.eqb (String.substring 4%nat 1%nat s) "-" &&
     String.eqb (String.substring 7%nat 1%nat s) "-" &&
     String.eqb (String.substring 10%nat 1%nat s) "T" &&
     String.eqb (String.substring 13%nat 1%nat s) ":" &&
     String.eqb (String.substring 16%nat 1%nat s) ":" &&
     String.eqb (String.substring 19%nat 7%nat s) "+00:00"
  then
    match field 0%nat 4%nat, field 5%nat 2%nat, field 8%nat 2%nat,
          field 11%nat 2%nat, field 14%nat 2%nat, field 17%nat 2%nat with
    | Some y, Some mo, Some d, Some h, Some mi, Some se =>
        Some (DateTime y mo d h mi se 0)
    | _, _, _, _, _, _ => None
    end
  else None.

(** A reading of the clock with its microseconds dropped. *)
Definition to_the_second (t : datetime) : datetime :=
  DateTime (year t) (month t) (day t) (hour t) (minute t) (second t) 0.

(** ** What the files hold *)

(** Every complete value in the two files can be encoded: it went through a
    dump. *)
Definition written_by_dump (w : world) : Prop :=
  (forall j, doc_file w = Some (Json j) -> encodable j = true) /\
  (forall j, tmp_file w = Some (Json j) -> encodable j = true).

(** ** A Document, field by field *)

(** [j] is an object with the three fields [revision], [updatedAt] and [doc]
    and no other, holding [r], [t] and [d]. *)
Definition is_document (j : json) (r : Z) (t : string) (d : json) : Prop :=
  exists fields,
    j = JDict fields /\
    fields !! "revision" = Some (JInt r) /\
    fields !! "updatedAt" = Some (JStr t) /\
    fields !! "doc" = Some d /\
    size fields = 3%nat.

(** ** A payload that UTF-8 cannot carry *)

(** U+D800 on its own, as [json.loads] returns it for the escape [\ud800]. *)
Definition lone_surrogate : string :=
  String (ascii_of_N 237) (String (ascii_of_N 160) (String (ascii_of_N 128) "")).

Definition task_u : json :=
  dict [ ("id", JStr "u"); ("title", JStr lone_surrogate); ("done", JBool false) ].

Definition surrogate_tasks : gmap string json := {[ "tasks" := JList [ task_u ] ]}.

(** A store whose [doc.json] is the beginning of a dump that broke off. *)
Definition broken_world : world := World (Some Truncated) None sample_clock 1 [].

(** * Properties *)

(** ** The sequential semantics of the combinators *)

Lemma run_bind {A B} (m : prog A) (f : A -> prog B) (w : world) :
  run (bind m f) w =
  match run m w with
  | (Ok a, w') => run (f a) w'
  | (Raise e, w') => (Raise e, w')
  end.
Proof.
  revert w. induction m as [a | e | X o k IH]; intros w; simpl; try reflexivity.
  destruct (exec_op o w) as [x w']. apply IH.
Qed.

Lemma run_catch {A} (m : prog A) (h : exn -> prog A) (w : world) :
  run (catch m h) w =
  match run m w with
  | (Ok a, w') => (Ok a, w')
  | (Raise e, w') => run (h e) w'
  end.
Proof.
  revert w. induction m as [a | e | X o k IH]; intros w; simpl; try reflexivity.
  destruct (exec_op o w) as [x w']. apply IH.
Qed.

Lemma run_lift {A} (r : result A) (w : world) : run (lift r) w = (r, w).
Proof. destruct r; reflexivity. Qed.

(** ** What the dump can write *)

Lemma is_surrogate_start_digit (n : N) (d : ascii) :
  is_surrogate_start (digit n) d = false.
Proof.
  unfold is_surrogate_start, digit.
  assert (Hn : (n mod 10 < 10)%N) by (apply N.mod_upper_bound; discriminate).
  rewrite N_ascii_embedding by lia.
  destruct (N.eqb_spec (48 + n mod 10) 237) as [H | _]; [lia | reflexivity].
Qed.

(** A timestamp is plain ASCII. *)
Lemma has_surrogate_isoformat (t : datetime) :
  has_surrogate (isoformat_seconds t) = false.
Proof.
  unfold isoformat_seconds, pad4, pad2.
  cbv beta iota zeta delta [String.append]. cbn [has_surrogate].
  rewrite !is_surrogate_start_digit. reflexivity.
Qed.

(** The dump walks a dictionary key by key. *)
Lemma encodable_insert (m : gmap string json) (k : string) (v : json) :
  m !! k = None ->
  encodable (JDict (<[k:=v]> m)) =
  negb (has_surrogate k) && encodable v && encodable (JDict m).
Proof.
  intros Hk. cbn [encodable].
  apply (map_fold_insert_L (fun k x rest => negb (has_surrogate k) && encodable x && rest)); [| exact Hk].
  intros j1 j2 z1 z2 y _ _ _.
  destruct (has_surrogate j1), (has_surrogate j2), (encodable z1), (encodable z2), y; reflexivity.
Qed.

(** A Document can be written when its timestamp and its payload can. *)
Lemma encodable_document (r : Z) (t : string) (d : json) :
  encodable (document r t d) = negb (has_surrogate t) && encodable d.
Proof.
  unfold document, dict. cbn [rev app].
  change (encodable (JDict (<["doc":=d]> (<["updatedAt":=JStr t]> (<["revision":=JInt r]> ∅)))) =
          negb (has_surrogate t) && encodable d).
  rewrite !encodable_insert by (vm_compute; reflexivity).
  change (has_surrogate "doc") with false.
  change (has_surrogate "updatedAt") with false.
  change (has_surrogate "revision") with false.
  change (encodable (JDict ∅)) with true.
  change (encodable (JStr t)) with (negb (has_surrogate t)).
  change (encodable (JInt r)) with true.
  destruct (has_surrogate t), (encodable d); reflexivity.
Qed.

Lemma encodable_next (r : Z) (t : datetime) (d : json) :
  encodable (document r (isoformat_seconds t) d) = encodable d.
Proof. now rewrite encodable_document, has_surrogate_isoformat. Qed.

Lemma encodable_seed (t : datetime) :
  encodable (seed (isoformat_seconds t)) = true.
Proof. unfold seed. rewrite encodable_next. vm_compute. reflexivity. Qed.

(** What the handlers send is a constant, a Document whose dump has just
    gone through, or a value [json.load] has read from [doc.json].  No
    operation, under any schedule, puts a value in a file that cannot be
    encoded; so the [encode] of [_send_json] has nothing to refuse. *)
Lemma exec_op_written_by_dump {X} (o : op X) (w : world) :
  written_by_dump w -> written_by_dump (snd (exec_op o w)).
Proof.
  destruct w as [d tmp c n l]. unfold written_by_dump.
  intros [Hd Ht]. cbn [doc_file tmp_file] in Hd, Ht.
  destruct o as [| | | data | |]; cbn [exec_op snd log doc_file tmp_file];
    try (split; assumption).
  - destruct (encodable data) eqn:Henc; cbn [snd log doc_file tmp_file];
      (split; [assumption |]); intros j [= <-]; assumption.
  - destruct tmp as [x |]; cbn [snd log doc_file tmp_file];
      [| split; assumption].
    split; [| discriminate]. intros j Hj. apply Ht. exact Hj.
Qed.

Lemma run_written_by_dump {A} (m : prog A) (w : world) :
  written_by_dump w -> written_by_dump (snd (run m w)).
Proof.
  revert w. induction m as [a | e | X o k IH]; intros w Hw; simpl; try assumption.
  pose proof (exec_op_written_by_dump o w Hw) as Hw1.
  destruct (exec_op o w) as [x w1]. now apply IH.
Qed.

Lemma run_schedule_written_by_dump (sched : list nat) (s : system) :
  written_by_dump (shared s) ->
  written_by_dump (shared (run_schedule sched s)).
Proof.
  revert s. induction sched as [| i sched IH]; intros s Hs; [exact Hs |].
  apply IH. unfold schedule_step.
  destruct (threads s !! i) as [m |]; [| exact Hs].
  destruct m as [a | e | X o k]; cbn [step]; try exact Hs.
  pose proof (exec_op_written_by_dump o (shared s) Hs) as Hw1.
  destruct (exec_op o (shared s)) as [x w1]. exact Hw1.
Qed.

(** ** What a timestamp says *)

Lemma digit_of_digit (n : N) : digit_of (digit n) = Some (n mod 10)%N.
Proof.
  unfold digit_of, digit.
  assert (Hn : (n mod 10 < 10)%N) by (apply N.mod_upper_bound; discriminate).
  rewrite N_ascii_embedding by lia. cbv zeta.
  generalize dependent (n mod 10)%N. intros k Hk.
  destruct (N.leb_spec 48 (48 + k)) as [_ | H]; [| lia].
  destruct (N.leb_spec (48 + k) 57) as [_ | H]; [| lia].
  cbn [andb]. f_equal. lia.
Qed.

Lemma two_digits (a : N) :
  (a < 100)%N -> (10 * (10 * 0 + (a / 10) mod 10) + a mod 10 = a)%N.
Proof.
  intros Ha.
  assert (Hq : (a / 10 < 10)%N) by (apply N.Div0.div_lt_upper_bound; lia).
  rewrite (N.mod_small (a / 10)) by assumption.
  pose proof (N.div_mod a 10 ltac:(discriminate)). lia.
Qed.

Lemma four_digits (a : N) :
  (a < 10000)%N ->
  (10 * (10 * (10 * (10 * 0 + (a / 1000) mod 10) + (a / 100) mod 10) +
         (a / 10) mod 10) + a mod 10 = a)%N.
Proof.
  intros Ha.
  pose proof (N.div_mod a 10 ltac:(discriminate)).
  pose proof (N.div_mod (a / 10) 10 ltac:(discriminate)).
  pose proof (N.div_mod (a / 100) 10 ltac:(discriminate)).
  assert (a / 10 / 10 = a / 100)%N by (rewrite N.Div0.div_div; reflexivity).
  assert (a / 100 / 10 = a / 1000)%N by (rewrite N.Div0.div_div; reflexivity).
  assert (a / 1000 < 10)%N by (apply N.Div0.div_lt_upper_bound; lia).
  rewrite (N.mod_small (a / 1000)) by assumption.
  lia.
Qed.

Lemma read_timestamp_isoformat (t : datetime) :
  valid_datetime t ->
  read_timestamp (isoformat_seconds t) = Some (to_the_second t).
Proof.
  destruct t as [y mo d h mi s us]. unfold valid_datetime, to_the_second.
  cbn [year month day hour minute second].
  intros (Hy & Hmo & Hd & Hh & Hmi & Hs).
  unfold isoformat_seconds, pad4, pad2.
  cbn [year month day hour minute second].
  cbv beta iota zeta delta [String.append].
  unfold read_timestamp.
  cbn [String.substring String.eqb Ascii.eqb Bool.eqb andb].
  repeat (cbn [number_of]; rewrite digit_of_digit).
  cbn [number_of].
  rewrite (four_digits y), !two_digits by lia. reflexivity.
Qed.

(** ** Seeding *)

Lemma run_ensure_seed_doc_exists (w : world) (cur : content) :
  doc_file w = Some cur ->
  run ensure_seed_doc w = (Ok tt, logged [EvMkdir; EvExists] w).
Proof.
  destruct w as [d tmp c n l]; simpl; intros ->. unfold logged, log; simpl.
  rewrite <- app_assoc. reflexivity.
Qed.

Lemma run_ensure_seed_doc_present (w : world) (cur : json) :
  doc_file w = Some (Json cur) ->
  run ensure_seed_doc w = (Ok tt, logged [EvMkdir; EvExists] w).
Proof. apply run_ensure_seed_doc_exists. Qed.

Lemma run_ensure_seed_doc_absent (w : world) :
  doc_file w = None ->
  let s := seed (isoformat_seconds (clock w (ticks w))) in
  run ensure_seed_doc w =
  (Ok tt, World (Some (Json s)) None (clock w) (S (ticks w))
            (fs_log w ++ [EvMkdir; EvExists; EvWriteTmp s; EvReplace])).
Proof.
  destruct w as [d tmp c n l]; simpl; intros ->. simpl.
  rewrite encodable_seed. simpl.
  unfold log; simpl.
  repeat rewrite <- app_assoc. reflexivity.
Qed.

(** The timestamp has second precision: the microseconds of the reading do
    not show. *)
Lemma isoformat_seconds_precision (y mo d h mi s us us' : N) :
  isoformat_seconds (DateTime y mo d h mi s us) =
  isoformat_seconds (DateTime y mo d h mi s us').
Proof. reflexivity. Qed.

Lemma isinstance_int_value (b : json) (n : Z) :
  int_value b = Some n -> isinstance_int b = true.
Proof. destruct b; simpl; congruence. Qed.

Lemma isoformat_same_second (t t' : datetime) :
  same_second t t' -> isoformat_seconds t = isoformat_seconds t'.
Proof.
  destruct t, t'; unfold same_second; simpl.
  intros (-> & -> & -> & -> & -> & ->). reflexivity.
Qed.

(** ** Fetching the document *)

Lemma run_handle_get_doc_present (w : world) (cur : json) :
  doc_file w = Some (Json cur) ->
  run handle_get_doc w =
  (Ok (JsonResponse 200 cur), logged [EvMkdir; EvExists; EvRead] w).
Proof.
  intros Hcur. unfold handle_get_doc.
  rewrite run_bind, (run_ensure_seed_doc_present w cur Hcur).
  destruct w as [d tmp c k l]; simpl in *; subst d.
  unfold logged, log; simpl. now rewrite <- app_assoc.
Qed.

(** C7. The first fetch on an empty store seeds it and returns revision 0
    with the two-task seed payload; a later fetch of that store returns the
    same Document; and seeding leaves an existing Document alone. *)
Theorem first_get_seeds_once (w : world) :
  doc_file w = None ->
  let s := seed (isoformat_seconds (clock w (ticks w))) in
  exists w1,
    run handle_get_doc w = (Ok (JsonResponse 200 s), w1) /\
    doc_file w1 = Some (Json s) /\
    py_get s "revision" JNull = Ok (JInt 0) /\
    py_get s "doc" JNull = Ok (dict [ ("tasks", JList seed_tasks) ]) /\
    length seed_tasks = 2%nat /\
    (forall w2, doc_file w2 = doc_file w1 ->
       run handle_get_doc w2 =
       (Ok (JsonResponse 200 s), logged [EvMkdir; EvExists; EvRead] w2)) /\
    (forall w2 cur, doc_file w2 = Some (Json cur) ->
       run ensure_seed_doc w2 = (Ok tt, logged [EvMkdir; EvExists] w2)).
Proof.
  intros Hnone s. unfold handle_get_doc at 1.
  rewrite run_bind, (run_ensure_seed_doc_absent w Hnone). fold s.
  eexists. split; [reflexivity |]. simpl.
  repeat split.
  - intros w2 H2. apply (run_handle_get_doc_present w2 s H2).
  - intros w2 cur H2. apply (run_ensure_seed_doc_present w2 cur H2).
Qed.

(** ** The in-progress view *)

Lemma run_handle_get_inprogress_present (w : world) (payload : json) :
  doc_file w = Some (Json payload) ->
  run handle_get_inprogress w =
  (result_bind (py_get payload "doc" (JDict ∅)) (fun doc =>
   result_bind (py_get doc "tasks" (JList [])) (fun tasks =>
   result_bind (py_iter tasks) (fun items =>
   result_bind (inprogress_of items) (fun inprogress =>
   Ok (JsonResponse 200 (JList inprogress)))))),
   logged [EvMkdir; EvExists; EvRead] w).
Proof.
  intros Hcur. unfold handle_get_inprogress.
  rewrite run_bind, (run_ensure_seed_doc_present w payload Hcur).
  destruct w as [d tmp c k l]; simpl in *; subst d.
  assert (Hw : log EvRead (logged [EvMkdir; EvExists]
                             (World (Some (Json payload)) tmp c k l))
               = logged [EvMkdir; EvExists; EvRead]
                   (World (Some (Json payload)) tmp c k l)).
  { unfold logged, log; simpl. now rewrite <- app_assoc. }
  rewrite Hw. generalize (logged [EvMkdir; EvExists; EvRead]
                            (World (Some (Json payload)) tmp c k l)) as w'.
  intros w'.
  cbn [lift bind].
  destruct (py_get payload "doc" (JDict ∅)) as [doc |]; [| reflexivity].
  cbn [lift bind result_bind].
  destruct (py_get doc "tasks" (JList [])) as [tasks |]; [| reflexivity].
  cbn [lift bind result_bind].
  destruct (py_iter tasks) as [items |]; [| reflexivity].
  cbn [lift bind result_bind].
  destruct (inprogress_of items) as [inprogress |]; reflexivity.
Qed.

(** In general the view keeps the tasks whose [done] is falsy. *)
Lemma inprogress_of_dicts (ts : list json) :
  Forall (fun t => isinstance_dict t = true) ts ->
  inprogress_of ts =
  Ok (List.filter
        (fun t => match py_get t "done" JNull with
                  | Ok done => negb (truthy done)
                  | Raise _ => false
                  end) ts).
Proof.
  induction 1 as [| t ts Ht _ IH]; [reflexivity |].
  destruct t; try discriminate. simpl. rewrite IH. simpl.
  destruct (truthy _); reflexivity.
Qed.








(** C10. When the stored payload has no [doc] key, or its [doc] has no
    [tasks] key, the view succeeds and is the empty array. *)
Theorem inprogress_missing_keys (w : world) (p : gmap string json) :
  doc_file w = Some (Json (JDict p)) ->
  p !! "doc" = None \/
  (exists d, p !! "doc" = Some (JDict d) /\ d !! "tasks" = None) ->
  run handle_get_inprogress w =
    (Ok (JsonResponse 200 (JList [])), logged [EvMkdir; EvExists; EvRead] w).
Proof.
  intros Hcur Hmiss.
  rewrite (run_handle_get_inprogress_present w _ Hcur). simpl.
  destruct Hmiss as [-> | (d & -> & Hd)]; simpl.
  - reflexivity.
  - rewrite Hd. reflexivity.
Qed.

(** ** The Document the handler builds *)

Lemma document_is_document (r : Z) (t : string) (d : json) :
  is_document (document r t d) r t d.
Proof.
  unfold document, dict. eexists.
  split; [reflexivity |]. repeat split.
Qed.

Section Gateway.

Variable int_of_str : string -> option Z.

(** ** Propose-update: commit and conflict *)

Lemma current_revision_document (r : Z) (t : string) (d : json) :
  current_revision int_of_str (document r t d) = Ok r.
Proof. reflexivity. Qed.

(** What [_handle_put_doc] does on a well-formed body, once
    [_ensure_seed_doc] has left the world [w1] with the Document [cur]. *)
Lemma run_handle_put_doc_valid (w w1 : world) (cur : json)
    (m payload : gmap string json) (b : json) (n : Z) :
  run ensure_seed_doc w = (Ok tt, w1) ->
  doc_file w1 = Some (Json cur) ->
  m !! "baseRevision" = Some b ->
  int_value b = Some n ->
  m !! "doc" = Some (JDict payload) ->
  run (handle_put_doc int_of_str (BodyJson (JDict m))) w =
  match current_revision int_of_str cur with
  | Raise e => (Raise e, logged [EvRead] w1)
  | Ok r =>
      if Z.eqb n r then
        let next :=
          document (r + 1) (isoformat_seconds (clock w1 (ticks w1)))
            (JDict payload) in
        if encodable (JDict payload) then
          (Ok (JsonResponse 200 next),
           World (Some (Json next)) None (clock w1) (S (ticks w1))
             (fs_log w1 ++ [EvRead; EvWriteTmp next; EvReplace]))
        else
          (Raise (PyError UnicodeEncodeError),
           World (Some (Json cur)) (Some Truncated) (clock w1) (S (ticks w1))
             (fs_log w1 ++ [EvRead; EvWriteTmp next]))
      else
        (Ok (JsonResponse 409
               (dict [ ("error", JStr "conflict"); ("current", cur) ])),
         logged [EvRead] w1)
  end.
Proof.
  intros Hseed Hcur Hb Hint Hdoc.
  unfold handle_put_doc. rewrite run_bind, Hseed.
  destruct w1 as [d tmp c k l]; simpl in Hcur; subst d. simpl.
  rewrite Hb, Hdoc. simpl.
  rewrite (isinstance_int_value b n Hint). simpl.
  destruct (current_revision int_of_str cur) as [r | e]; simpl; [| reflexivity].
  unfold int_ne. rewrite Hint.
  destruct (Z.eqb n r); simpl; [| reflexivity].
  rewrite encodable_next.
  destruct (encodable (JDict payload)); simpl; unfold log; simpl;
    repeat rewrite <- app_assoc; reflexivity.
Qed.

(** [do_PUT] turns what [_handle_put_doc] raises into a response. *)
Lemma run_do_PUT (req : raw_body) (w : world) :
  run (do_PUT int_of_str "/api/doc" req) w =
  match run (handle_put_doc int_of_str req) w with
  | (Ok resp, w') => (Ok resp, w')
  | (Raise (ApiError status message), w') =>
      if Z.leb 500 status then (Ok (TextResponse 500 "Server error"), w')
      else (Ok (JsonResponse status (dict [ ("error", JStr message) ])), w')
  | (Raise (PyError _), w') => (Ok (TextResponse 500 "Server error"), w')
  end.
Proof.
  unfold do_PUT, handle_errors. simpl String.eqb. cbv iota.
  rewrite run_catch.
  destruct (run (handle_put_doc int_of_str req) w) as [[resp | [st msg | e]] w'];
    try reflexivity.
  simpl. destruct (Z.leb 500 st); reflexivity.
Qed.

(** C1, as the code has it.  A propose-update whose [baseRevision] equals
    the stored revision and whose candidate payload can be written as UTF-8
    writes and returns a Document with exactly the fields [revision], the
    stored revision plus 1, [updatedAt], the clock's reading as a UTC
    timestamp to the second, and [doc], the candidate payload; it answers 200,
    which is not the conflict status. *)
Theorem put_commits (w : world) (cur : json) (m payload : gmap string json)
    (b : json) (r : Z) :
  doc_file w = Some (Json cur) ->
  current_revision int_of_str cur = Ok r ->
  m !! "baseRevision" = Some b ->
  int_value b = Some r ->
  m !! "doc" = Some (JDict payload) ->
  encodable (JDict payload) = true ->
  let now := clock w (ticks w) in
  exists resp next w',
    run (handle_put_doc int_of_str (BodyJson (JDict m))) w = (Ok resp, w') /\
    resp = JsonResponse 200 next /\
    is_document next (r + 1) (isoformat_seconds now) (JDict payload) /\
    (valid_datetime now ->
     read_timestamp (isoformat_seconds now) = Some (to_the_second now)) /\
    doc_file w' = Some (Json next) /\
    fs_log w' =
      (fs_log w ++ [EvMkdir; EvExists; EvRead; EvWriteTmp next; EvReplace])%list /\
    status_of resp = 200 /\
    status_of resp <> 409.
Proof.
  intros Hcur Hrev Hb Hint Hdoc Henc now.
  rewrite (run_handle_put_doc_valid w _ cur m payload b r
             (run_ensure_seed_doc_present w cur Hcur) Hcur Hb Hint Hdoc).
  rewrite Hrev, Z.eqb_refl, Henc. cbv zeta.
  do 3 eexists. split; [reflexivity |].
  split; [reflexivity |].
  split; [apply document_is_document |].
  split; [apply read_timestamp_isoformat |].
  split; [reflexivity |].
  split; [simpl; rewrite <- app_assoc; reflexivity |].
  split; [reflexivity | discriminate].
Qed.



(** ** Round trip *)

(** C8. After a propose-update of [payload] on base revision [r] has
    succeeded, a fetch with no write in between returns a Document whose [doc]
    is [payload] and whose [revision] is [r + 1]: the Document the
    propose-update was answered with. *)
Theorem put_get_round_trip (w w' : world) (m payload : gmap string json)
    (b : json) (r : Z) (resp : response) :
  m !! "baseRevision" = Some b ->
  int_value b = Some r ->
  m !! "doc" = Some (JDict payload) ->
  run (handle_put_doc int_of_str (BodyJson (JDict m))) w = (Ok resp, w') ->
  status_of resp = 200 ->
  exists fetched fields w'',
    run handle_get_doc w' = (Ok (JsonResponse 200 fetched), w'') /\
    fetched = JDict fields /\
    fields !! "doc" = Some (JDict payload) /\
    fields !! "revision" = Some (JInt (r + 1)) /\
    py_get fetched "doc" JNull = Ok (JDict payload) /\
    py_get fetched "revision" JNull = Ok (JInt (r + 1)) /\
    resp = JsonResponse 200 fetched /\
    doc_file w'' = doc_file w'.
Proof.
  intros Hb Hint Hdoc Hrun Hst.
  assert (Hseed : (exists w1 cur,
             run ensure_seed_doc w = (Ok tt, w1) /\ doc_file w1 = Some (Json cur))
             \/ doc_file w = Some Truncated).
  { destruct (doc_file w) as [[cur |] |] eqn:Hd.
    - left. eexists; exists cur.
      split; [apply (run_ensure_seed_doc_present w cur Hd) | exact Hd].
    - right. reflexivity.
    - left. eexists; eexists. split; [apply (run_ensure_seed_doc_absent w Hd) |].
      reflexivity. }
  destruct Hseed as [(w1 & cur & Hseed & Hcur) | Hbroken].
  2: { exfalso. revert Hrun. unfold handle_put_doc.
       rewrite run_bind, (run_ensure_seed_doc_exists w _ Hbroken).
       destruct w as [d tmp c k l]; simpl in Hbroken; subst d. discriminate. }
  rewrite (run_handle_put_doc_valid w w1 cur m payload b r Hseed Hcur Hb Hint Hdoc)
    in Hrun.
  destruct (current_revision int_of_str cur) as [r' | e]; [| discriminate].
  destruct (Z.eqb_spec r r') as [Heq | Hne].
  - subst r'. cbv zeta in Hrun.
    destruct (encodable (JDict payload)); [| discriminate].
    injection Hrun as <- <-.
    destruct (document_is_document (r + 1)
                (isoformat_seconds (clock w1 (ticks w1))) (JDict payload))
      as (fields & Hnext & Hr & _ & Hd & _).
    exists (document (r + 1) (isoformat_seconds (clock w1 (ticks w1)))
              (JDict payload)), fields.
    eexists. split.
    + unfold handle_get_doc. rewrite run_bind.
      erewrite run_ensure_seed_doc_present by reflexivity. reflexivity.
    + split; [exact Hnext |]. split; [exact Hd |]. split; [exact Hr |].
      rewrite Hnext. simpl. rewrite Hd, Hr. rewrite <- Hnext. auto.
  - injection Hrun as <- <-. simpl in Hst. discriminate.
Qed.

(** ** Propose-update: validation *)

(** What [_handle_put_doc] does on an object that fails validation, once
    [_ensure_seed_doc] has left the world [w1]. *)
Lemma run_handle_put_doc_invalid (w w1 : world) (cur : json)
    (m : gmap string json) :
  run ensure_seed_doc w = (Ok tt, w1) ->
  doc_file w1 = Some (Json cur) ->
  isinstance_int (default JNull (m !! "baseRevision")) = false \/
  isinstance_dict (default JNull (m !! "doc")) = false ->
  run (handle_put_doc int_of_str (BodyJson (JDict m))) w =
  (Raise (ApiError 400
            (if isinstance_int (default JNull (m !! "baseRevision"))
             then "doc must be an object"
             else "baseRevision must be an integer")),
   logged [EvRead] w1).
Proof.
  intros Hseed Hcur Hbad.
  unfold handle_put_doc. rewrite run_bind, Hseed.
  destruct w1 as [d tmp c k l]; simpl in Hcur; subst d. simpl.
  destruct (isinstance_int (default JNull (m !! "baseRevision"))); simpl.
  - destruct Hbad as [Hb | Hd]; [discriminate | rewrite Hd]. reflexivity.
  - reflexivity.
Qed.

(** A [doc.json] that holds the beginning of a dump cannot be loaded: every
    propose-update is answered 500, the file stays. *)
Lemma broken_store_put (w : world) (req : raw_body) :
  doc_file w = Some Truncated ->
  run (do_PUT int_of_str "/api/doc" req) w =
  (Ok (TextResponse 500 "Server error"), logged [EvMkdir; EvExists; EvRead] w).
Proof.
  intros Hd. rewrite run_do_PUT. unfold handle_put_doc.
  rewrite run_bind, (run_ensure_seed_doc_exists w _ Hd).
  destruct w as [d tmp c k l]; simpl in Hd; subst d. simpl.
  unfold logged, log; simpl. now rewrite <- !app_assoc.
Qed.

(** C3, as the code has it.  A propose-update whose body is an object with
    a [baseRevision] that is no instance of [int], or a [doc] that is no dict,
    is answered 400 on a store that is empty or holds a value; by then the
    store has been seeded if it was empty, and read.  Nothing else is written:
    a stored Document stays as it was.  On a store whose file is the
    beginning of a dump the read fails first and the answer is 500. *)
Theorem invalid_update_rejected (w : world) (m : gmap string json) :
  isinstance_int (default JNull (m !! "baseRevision")) = false \/
  isinstance_dict (default JNull (m !! "doc")) = false ->
  (doc_file w <> Some Truncated ->
   exists msg w',
     run (do_PUT int_of_str "/api/doc" (BodyJson (JDict m))) w =
       (Ok (JsonResponse 400 (dict [ ("error", JStr msg) ])), w') /\
     (forall cur, doc_file w = Some (Json cur) ->
        w' = logged [EvMkdir; EvExists; EvRead] w) /\
     (doc_file w = None ->
        let s := seed (isoformat_seconds (clock w (ticks w))) in
        doc_file w' = Some (Json s) /\
        fs_log w' =
          (fs_log w ++ [EvMkdir; EvExists; EvWriteTmp s; EvReplace; EvRead])%list)) /\
  (doc_file w = Some Truncated ->
   run (do_PUT int_of_str "/api/doc" (BodyJson (JDict m))) w =
     (Ok (TextResponse 500 "Server error"),
      logged [EvMkdir; EvExists; EvRead] w)).
Proof.
  intros Hbad. split; [| apply broken_store_put].
  intros Hreadable. rewrite run_do_PUT.
  destruct (doc_file w) as [[cur |] |] eqn:Hd.
  - rewrite (run_handle_put_doc_invalid w _ cur m
               (run_ensure_seed_doc_present w cur Hd) Hd Hbad).
    simpl. do 2 eexists. split; [reflexivity |].
    split; [intros ? _ | discriminate].
    unfold logged; simpl. now rewrite <- app_assoc.
  - now destruct Hreadable.
  - rewrite (run_handle_put_doc_invalid w _ _ m
               (run_ensure_seed_doc_absent w Hd) eq_refl Hbad).
    simpl. do 2 eexists. split; [reflexivity |].
    split; [discriminate | intros _; cbv zeta].
    simpl. rewrite <- app_assoc. split; reflexivity.
Qed.

(** The other malformed requests: no body and text that is not JSON are
    answered 400 as well; a JSON body that is not an object has no [get] and
    is answered 500.  In each case the stored Document has been read and is
    left as it was. *)
Lemma malformed_body_rejected (w : world) (cur : json) (req : raw_body) :
  doc_file w = Some (Json cur) ->
  (forall m, req <> BodyJson (JDict m)) ->
  exists resp,
    run (do_PUT int_of_str "/api/doc" req) w =
      (Ok resp, logged [EvMkdir; EvExists; EvRead] w) /\
    match req with
    | BodyEmpty | BodyNotJson => status_of resp = 400
    | BodyUnreadable | BodyJson _ => resp = TextResponse 500 "Server error"
    end.
Proof.
  intros Hcur Hreq. rewrite run_do_PUT.
  unfold handle_put_doc.
  rewrite run_bind, (run_ensure_seed_doc_present w cur Hcur).
  assert (Hw : log EvRead (logged [EvMkdir; EvExists] w) =
               logged [EvMkdir; EvExists; EvRead] w).
  { unfold logged, log; simpl. now rewrite <- app_assoc. }
  destruct w as [d tmp c k l]; simpl in Hcur; subst d.
  destruct req as [| | | j]; simpl; try rewrite Hw;
    try (eexists; split; reflexivity).
  destruct j; simpl; try rewrite Hw; try (eexists; split; reflexivity).
  now destruct (Hreq d).
Qed.

(** ** Two writers *)

Lemma steps_finished {A} (n : nat) (r : result A) (w : world) :
  steps n (lift r) w = (lift r, w).
Proof. induction n as [| n IH]; destruct r; simpl in *; auto. Qed.

(** A thread given at least as many steps as it has operations ends where
    the sequential semantics says. *)
Lemma steps_run {A} (m : prog A) (w : world) (n : nat) :
  (ops m w <= n)%nat ->
  steps n m w = (lift (fst (run m w)), snd (run m w)).
Proof.
  revert w n. induction m as [a | e | X o k IH]; intros w n Hn.
  - apply (steps_finished n (Ok a)).
  - apply (steps_finished n (Raise e)).
  - destruct n as [| n]; simpl in *.
    + destruct (exec_op o w); lia.
    + destruct (exec_op o w) as [x w1]. apply IH. lia.
Qed.

(** A thread scheduled [n] times in a row takes [n] steps of its own. *)
Lemma run_schedule_replicate (n i : nat) (w : world)
    (ths : list (prog response)) (m : prog response) :
  ths !! i = Some m ->
  run_schedule (replicate n i) (System w ths) =
  System (snd (steps n m w)) (<[i := fst (steps n m w)]> ths).
Proof.
  revert w ths m. induction n as [| n IH]; intros w ths m Hi.
  - simpl. now rewrite list_insert_id.
  - simpl. unfold schedule_step at 1. simpl. rewrite Hi.
    destruct (step m w) as [m' w'].
    fold (run_schedule (replicate n i) (System w' (<[i := m']> ths))).
    rewrite (IH w' (<[i := m']> ths) m').
    + now rewrite list_insert_insert_eq.
    + apply list_lookup_insert_eq. eapply lookup_lt_Some, Hi.
Qed.

Lemma run_schedule_app (s1 s2 : list nat) (s : system) :
  run_schedule (s1 ++ s2) s = run_schedule s2 (run_schedule s1 s).
Proof. apply fold_left_app. Qed.

(** C4, as the code has it.  Nothing locks the store.  When one
    propose-update is given the processor until it has been answered and only
    then the other, both on the stored revision, and the first one's payload
    can be written, the first commits and the second meets a conflict that
    carries the first one's Document. *)
Theorem serial_writers_one_commits (w : world) (cur : json)
    (m1 m2 p1 p2 : gmap string json) (b1 b2 : json) (r : Z) (n1 n2 : nat) :
  doc_file w = Some (Json cur) ->
  current_revision int_of_str cur = Ok r ->
  m1 !! "baseRevision" = Some b1 -> int_value b1 = Some r ->
  m1 !! "doc" = Some (JDict p1) ->
  encodable (JDict p1) = true ->
  m2 !! "baseRevision" = Some b2 -> int_value b2 = Some r ->
  m2 !! "doc" = Some (JDict p2) ->
  let t1 := do_PUT int_of_str "/api/doc" (BodyJson (JDict m1)) in
  let t2 := do_PUT int_of_str "/api/doc" (BodyJson (JDict m2)) in
  (ops t1 w <= n1)%nat ->
  (ops t2 (snd (run t1 w)) <= n2)%nat ->
  let next :=
    document (r + 1) (isoformat_seconds (clock w (ticks w))) (JDict p1) in
  exists w',
    run_schedule (replicate n1 0%nat ++ replicate n2 1%nat) (System w [t1; t2]) =
    System w'
      [ Ret (JsonResponse 200 next);
        Ret (JsonResponse 409
               (dict [ ("error", JStr "conflict"); ("current", next) ])) ] /\
    doc_file w' = Some (Json next) /\
    is_document next (r + 1) (isoformat_seconds (clock w (ticks w))) (JDict p1).
Proof.
  intros Hcur Hrev Hb1 Hi1 Hd1 Henc Hb2 Hi2 Hd2 t1 t2 Hn1 Hn2 next.
  assert (Hrun1 : run t1 w =
    (Ok (JsonResponse 200 next),
     World (Some (Json next)) None (clock w) (S (ticks w))
       (fs_log (logged [EvMkdir; EvExists] w) ++
        [EvRead; EvWriteTmp next; EvReplace]))).
  { subst t1. rewrite run_do_PUT.
    rewrite (run_handle_put_doc_valid w _ cur m1 p1 b1 r
               (run_ensure_seed_doc_present w cur Hcur) Hcur Hb1 Hi1 Hd1).
    rewrite Hrev, Z.eqb_refl, Henc. reflexivity. }
  rewrite Hrun1 in Hn2. cbn [snd] in Hn2.
  set (w1 := World (Some (Json next)) None (clock w) (S (ticks w))
       (fs_log (logged [EvMkdir; EvExists] w) ++
        [EvRead; EvWriteTmp next; EvReplace])) in *.
  assert (Hrun2 : run t2 w1 =
    (Ok (JsonResponse 409
           (dict [ ("error", JStr "conflict"); ("current", next) ])),
     logged [EvRead] (logged [EvMkdir; EvExists] w1))).
  { subst t2. rewrite run_do_PUT.
    rewrite (run_handle_put_doc_valid w1 _ next m2 p2 b2 r
               (run_ensure_seed_doc_present w1 next eq_refl) eq_refl Hb2 Hi2 Hd2).
    subst next. rewrite current_revision_document.
    destruct (Z.eqb_spec r (r + 1)) as [? | _]; [lia | reflexivity]. }
  exists (logged [EvRead] (logged [EvMkdir; EvExists] w1)).
  split; [| split; [reflexivity | apply document_is_document]].
  rewrite run_schedule_app.
  rewrite (run_schedule_replicate n1 0 w [t1; t2] t1 eq_refl).
  rewrite (steps_run t1 w n1 Hn1), Hrun1. cbn [fst snd].
  change (<[0%nat := lift (Ok (JsonResponse 200 next))]> [t1; t2])
    with [Ret (JsonResponse 200 next); t2].
  rewrite (run_schedule_replicate n2 1 w1
             [Ret (JsonResponse 200 next); t2] t2 eq_refl).
  rewrite (steps_run t2 w1 n2 Hn2), Hrun2. reflexivity.
Qed.

End Gateway.

(** ** Sequences of requests *)

Section Sequences.

Variable int_of_str : string -> option Z.
Variable serve_static_file : string -> prog response.

Lemma valid_update_fields (m : gmap string json) :
  isinstance_int (default JNull (m !! "baseRevision")) = true ->
  isinstance_dict (default JNull (m !! "doc")) = true ->
  exists b n payload,
    m !! "baseRevision" = Some b /\ int_value b = Some n /\
    m !! "doc" = Some (JDict payload).
Proof.
  destruct (m !! "baseRevision") as [b |]; [| discriminate].
  destruct (m !! "doc") as [d |]; [| discriminate]. simpl.
  intros Hb Hd. destruct d; try discriminate.
  destruct b; try discriminate; eauto 6.
Qed.

(** One request on a stored Document of revision [r]: it is answered, and
    either it is an accepted write, answered with the Document of revision
    [r + 1] that is now stored, or the stored Document is as it was. *)
Lemma serve_step (rq : request) (w : world) (r : Z) (t : string) (d : json) :
  doc_file w = Some (Json (document r t d)) ->
  exists resp w',
    run (serve int_of_str serve_static_file rq) w = (Ok resp, w') /\
    ((accepted (rq, Ok resp) = true /\
      exists t' d', resp = JsonResponse 200 (document (r + 1) t' d') /\
                    doc_file w' = Some (Json (document (r + 1) t' d'))) \/
     (accepted (rq, Ok resp) = false /\ doc_file w' = doc_file w)).
Proof.
  intros Hcur. destruct rq as [| req |].
  - change (serve int_of_str serve_static_file GetDocument)
      with (handle_errors handle_get_doc).
    unfold handle_errors.
    rewrite run_catch, (run_handle_get_doc_present w _ Hcur).
    do 2 eexists. split; [reflexivity |]. right. split; reflexivity.
  - change (serve int_of_str serve_static_file (ProposeUpdate req))
      with (do_PUT int_of_str "/api/doc" req).
    rewrite run_do_PUT.
    pose proof (run_ensure_seed_doc_present w _ Hcur) as Hseed.
    destruct req as [| | | j].
    1-3: unfold handle_put_doc; rewrite run_bind, Hseed;
      destruct w as [f tmp c k l]; simpl in Hcur; subst f; simpl;
      do 2 eexists; (split; [reflexivity |]); right; split; reflexivity.
    destruct j as [| bb | z | f | str | l | m].
    1-6: unfold handle_put_doc; rewrite run_bind, Hseed;
      destruct w as [f' tmp c k l']; simpl in Hcur; subst f'; simpl;
      do 2 eexists; (split; [reflexivity |]); right; split; reflexivity.
    destruct (isinstance_int (default JNull (m !! "baseRevision"))) eqn:Hb.
    + destruct (isinstance_dict (default JNull (m !! "doc"))) eqn:Hd.
      * destruct (valid_update_fields m Hb Hd)
          as (b & n & payload & Hbl & Hint & Hdl).
        rewrite (run_handle_put_doc_valid int_of_str w _ _ m payload b n
                   Hseed Hcur Hbl Hint Hdl).
        rewrite current_revision_document.
        destruct (Z.eqb n r); [cbv zeta; destruct (encodable (JDict payload)) |].
        -- do 2 eexists. split; [reflexivity |]. left.
           split; [reflexivity |]. do 2 eexists. split; reflexivity.
        -- do 2 eexists. split; [reflexivity |]. right.
           split; [reflexivity | symmetry; exact Hcur].
        -- do 2 eexists. split; [reflexivity |]. right. split; reflexivity.
      * rewrite (run_handle_put_doc_invalid int_of_str w _ _ m Hseed Hcur
                   (or_intror Hd)).
        rewrite Hb. simpl.
        do 2 eexists. split; [reflexivity |]. right. split; reflexivity.
    + rewrite (run_handle_put_doc_invalid int_of_str w _ _ m Hseed Hcur
                 (or_introl Hb)).
      rewrite Hb. simpl.
      do 2 eexists. split; [reflexivity |]. right. split; reflexivity.
  - change (serve int_of_str serve_static_file GetInProgress)
      with (handle_errors handle_get_inprogress).
    unfold handle_errors.
    rewrite run_catch, (run_handle_get_inprogress_present w _ Hcur).
    destruct (result_bind (py_get (document r t d) "doc" (JDict ∅)) _)
      as [resp | [st msg | e]].
    + do 2 eexists. split; [reflexivity |]. right. split; reflexivity.
    + simpl. destruct (Z.leb 500 st);
        do 2 eexists; (split; [reflexivity |]); right; split; reflexivity.
    + do 2 eexists. split; [reflexivity |]. right. split; reflexivity.
Qed.

Lemma response_revision_document (st : Z) (r : Z) (t : string) (d : json) :
  response_revision (Ok (JsonResponse st (document r t d))) = Some r.
Proof. reflexivity. Qed.

Lemma stored_revision_document (w : world) (r : Z) (t : string) (d : json) :
  doc_file w = Some (Json (document r t d)) ->
  stored_revision int_of_str w = Some r.
Proof.
  intros H. unfold stored_revision. rewrite H.
  now rewrite current_revision_document.
Qed.

Lemma committed_revisions_cons (x : request * result response)
    (log : list (request * result response)) :
  committed_revisions (x :: log) =
  match (if accepted x then response_revision (snd x) else None) with
  | Some r => r :: committed_revisions log
  | None => committed_revisions log
  end.
Proof. reflexivity. Qed.

(** Served from a stored Document of revision [r], a sequence of requests
    leaves a Document whose revision is [r] plus the number of accepted
    writes, and these were answered with [r + 1], [r + 2], ... in turn. *)
Lemma serve_all_revisions (rqs : list request) (w : world)
    (r : Z) (t : string) (d : json) :
  doc_file w = Some (Json (document r t d)) ->
  let log := fst (serve_all int_of_str serve_static_file rqs w) in
  let w' := snd (serve_all int_of_str serve_static_file rqs w) in
  (exists t' d',
     doc_file w' = Some (Json (document (r + Z.of_nat (accepted_writes log)) t' d'))) /\
  committed_revisions log =
    (fun i => r + Z.of_nat i) <$> seq 1 (accepted_writes log).
Proof.
  revert w r t d. induction rqs as [| rq rqs IH]; intros w r t d Hcur.
  - simpl. split; [| reflexivity].
    exists t, d. rewrite Hcur. do 3 f_equal. unfold accepted_writes. simpl. lia.
  - destruct (serve_step rq w r t d Hcur) as (resp & w1 & Hrun & Hcase).
    cbn [serve_all]. rewrite Hrun.
    destruct (serve_all int_of_str serve_static_file rqs w1) as [log w2] eqn:Hrest.
    cbn [fst snd].
    rewrite committed_revisions_cons.
    unfold accepted_writes. cbn [List.filter].
    destruct Hcase as [(Hacc & t1 & d1 & -> & Hw1) | (Hacc & Hw1)]; rewrite Hacc.
    + specialize (IH w1 (r + 1) t1 d1 Hw1). rewrite Hrest in IH.
      cbn [fst snd] in IH. destruct IH as [(t' & d' & Hw2) IH].
      unfold accepted_writes in *. cbn [snd length].
      rewrite response_revision_document.
      split.
      * exists t', d'. rewrite Hw2. do 3 f_equal. lia.
      * rewrite IH. cbn [seq fmap list_fmap]. f_equal.
        rewrite <- (fmap_S_seq 1), <- list_fmap_compose.
        apply list_fmap_ext. intros i x _. simpl. lia.
    + rewrite Hcur in Hw1. specialize (IH w1 r t d Hw1). rewrite Hrest in IH.
      exact IH.
Qed.

(** C5, as the code has it.  From the seed Document, after any sequence of
    requests served one after the other, the stored revision is the number of
    writes accepted so far, a natural number that is 0 at the start; the next
    request leaves it unchanged, or is an accepted write and raises it by one;
    and the accepted writes were answered with the revisions 1, 2, 3, ... in
    turn, no two of them the same. *)
Theorem revision_counts_accepted_writes (pre : list request) (rq : request)
    (w : world) (t : string) :
  doc_file w = Some (Json (seed t)) ->
  let log := fst (serve_all int_of_str serve_static_file pre w) in
  let w1 := snd (serve_all int_of_str serve_static_file pre w) in
  let n := Z.of_nat (accepted_writes log) in
  stored_revision int_of_str w = Some 0 /\
  stored_revision int_of_str w1 = Some n /\
  0 <= n /\
  committed_revisions log = Z.of_nat <$> seq 1 (accepted_writes log) /\
  NoDup (committed_revisions log) /\
  exists resp w2,
    run (serve int_of_str serve_static_file rq) w1 = (Ok resp, w2) /\
    stored_revision int_of_str w2 =
      Some (if accepted (rq, Ok resp) then n + 1 else n) /\
    (accepted (rq, Ok resp) = true ->
     response_revision (Ok resp) = Some (n + 1)).
Proof.
  intros Hseed log w1 n.
  destruct (serve_all_revisions pre w 0 t _ Hseed) as [(t1 & d1 & Hw1) Hrevs].
  fold log in Hw1, Hrevs. fold w1 in Hw1.
  rewrite Z.add_0_l in Hw1. fold n in Hw1.
  assert (Hlist : committed_revisions log =
                  Z.of_nat <$> seq 1 (accepted_writes log)).
  { rewrite Hrevs. apply list_fmap_ext. intros i x _. lia. }
  split; [exact (stored_revision_document w 0 t _ Hseed) |].
  split; [exact (stored_revision_document w1 n t1 d1 Hw1) |].
  split; [lia |].
  split; [exact Hlist |].
  split.
  { rewrite Hlist. apply NoDup_fmap_2; [| apply NoDup_seq].
    intros i j Hij. lia. }
  destruct (serve_step rq w1 n t1 d1 Hw1) as (resp & w2 & Hrun & Hcase).
  exists resp, w2. split; [exact Hrun |].
  destruct Hcase as [(Hacc & t2 & d2 & -> & Hw2) | (Hacc & Hw2)]; rewrite Hacc.
  - split; [exact (stored_revision_document w2 _ t2 d2 Hw2) |].
    intros _. apply response_revision_document.
  - split; [| discriminate].
    rewrite Hw1 in Hw2. exact (stored_revision_document w2 n t1 d1 Hw2).
Qed.

End Sequences.

(** * The theorems at work on sample requests *)

Lemma put_commits_witness :
  exists next w',
    run (handle_put_doc decimal_int_of_str (update (JInt 0) (JDict no_tasks)))
      seeded_world = (Ok (JsonResponse 200 next), w') /\
    is_document next 1 at_1 (JDict no_tasks) /\
    read_timestamp at_1 = Some (DateTime 2025 12 16 9 5 1 0) /\
    doc_file w' = Some (Json next).
Proof.
  destruct (put_commits decimal_int_of_str seeded_world (seed at_0)
              (update_fields (JInt 0) (JDict no_tasks)) no_tasks (JInt 0) 0
              eq_refl eq_refl eq_refl eq_refl eq_refl eq_refl)
    as (resp & next & w' & Hrun & -> & Hnext & Hts & Hdoc & _).
  exists next, w'. split; [exact Hrun |]. split; [exact Hnext |].
  split; [| exact Hdoc].
  apply Hts. vm_compute. repeat split; discriminate.
Defined.

(** C1 as stated fails: a payload that [json.loads] accepts but that holds a
    surrogate on its own cannot be written.  The dump breaks off, the request
    is answered 500 although its [baseRevision] is the stored revision, the
    stored Document stays and the beginning of the dump is left in the
    temporary file. *)
Lemma put_surrogate_not_committed :
  stored_revision decimal_int_of_str seeded_world = Some 0 /\
  run (do_PUT decimal_int_of_str "/api/doc"
         (update (JInt 0) (JDict surrogate_tasks))) seeded_world =
    (Ok (TextResponse 500 "Server error"),
     World (Some (Json (seed at_0))) (Some Truncated) sample_clock 2
       [ EvMkdir; EvExists; EvRead;
         EvWriteTmp (document 1 at_1 (JDict surrogate_tasks)) ]) /\
  doc_file seeded_world = Some (Json (seed at_0)).
Proof.
  split; [vm_compute; reflexivity |].
  split; [vm_compute; reflexivity | reflexivity].
Qed.


Lemma invalid_update_rejected_witness :
  (exists msg w',
     run (do_PUT decimal_int_of_str "/api/doc"
            (update (JStr "zero") (JDict no_tasks))) seeded_world =
     (Ok (JsonResponse 400 (dict [ ("error", JStr msg) ])), w') /\
     w' = logged [EvMkdir; EvExists; EvRead] seeded_world) /\
  run (do_PUT decimal_int_of_str "/api/doc"
         (update (JStr "zero") (JDict no_tasks))) broken_world =
    (Ok (TextResponse 500 "Server error"),
     logged [EvMkdir; EvExists; EvRead] broken_world).
Proof.
  destruct (invalid_update_rejected decimal_int_of_str seeded_world
              (update_fields (JStr "zero") (JDict no_tasks))
              (or_introl eq_refl)) as [Hstored _].
  destruct (invalid_update_rejected decimal_int_of_str broken_world
              (update_fields (JStr "zero") (JDict no_tasks))
              (or_introl eq_refl)) as [_ Hbroken].
  split; [| exact (Hbroken eq_refl)].
  destruct Hstored as (msg & w' & Hrun & Hsame & _); [discriminate |].
  exists msg, w'. split; [exact Hrun |]. exact (Hsame (seed at_0) eq_refl).
Defined.

(** C3 as stated fails: the store is seeded, or at least read, before the
    body is looked at, and a negative [baseRevision] is not rejected but
    compared. *)
Lemma invalid_update_touches_store :
  ~ rejected_before_store decimal_int_of_str empty_world
      (update (JStr "zero") (JDict no_tasks)) /\
  ~ rejected_before_store decimal_int_of_str seeded_world
      (update (JInt (-1)) (JDict no_tasks)) /\
  run (do_PUT decimal_int_of_str "/api/doc"
         (update (JStr "zero") (JDict no_tasks))) empty_world =
    (Ok (JsonResponse 400
           (dict [ ("error", JStr "baseRevision must be an integer") ])),
     World (Some (Json (seed at_0))) None sample_clock 1
       [EvMkdir; EvExists; EvWriteTmp (seed at_0); EvReplace; EvRead]) /\
  run (do_PUT decimal_int_of_str "/api/doc"
         (update (JInt (-1)) (JDict no_tasks))) seeded_world =
    (Ok (JsonResponse 409
           (dict [ ("error", JStr "conflict"); ("current", seed at_0) ])),
     logged [EvMkdir; EvExists; EvRead] seeded_world).
Proof.
  assert (H1 : run (do_PUT decimal_int_of_str "/api/doc"
                      (update (JStr "zero") (JDict no_tasks))) empty_world =
    (Ok (JsonResponse 400
           (dict [ ("error", JStr "baseRevision must be an integer") ])),
     World (Some (Json (seed at_0))) None sample_clock 1
       [EvMkdir; EvExists; EvWriteTmp (seed at_0); EvReplace; EvRead]))
    by (vm_compute; reflexivity).
  assert (H2 : run (do_PUT decimal_int_of_str "/api/doc"
                      (update (JInt (-1)) (JDict no_tasks))) seeded_world =
    (Ok (JsonResponse 409
           (dict [ ("error", JStr "conflict"); ("current", seed at_0) ])),
     logged [EvMkdir; EvExists; EvRead] seeded_world))
    by (vm_compute; reflexivity).
  repeat split; try assumption.
  - intros [msg H]. rewrite H1 in H.
    apply (f_equal (fun x => fs_log (snd x))) in H. discriminate H.
  - intros [msg H]. rewrite H2 in H.
    apply (f_equal (fun x => fs_log (snd x))) in H. discriminate H.
Qed.


(** C4 as stated fails: nothing serializes the two writers.  When both read
    the store before either writes, both are answered 200 with revision 1, and
    the first one's Document is overwritten. *)
Lemma interleaved_writers_both_commit :
  let s :=
    run_schedule [0; 0; 0; 1; 1; 1; 0; 0; 0; 1; 1; 1]%nat
      (System seeded_world
         [ do_PUT decimal_int_of_str "/api/doc" (update (JInt 0) (JDict one_task));
           do_PUT decimal_int_of_str "/api/doc" (update (JInt 0) (JDict no_tasks)) ]) in
  threads s =
    [ Ret (JsonResponse 200 (document 1 at_1 (JDict one_task)));
      Ret (JsonResponse 200 (document 1 at_2 (JDict no_tasks))) ] /\
  doc_file (shared s) = Some (Json (document 1 at_2 (JDict no_tasks))) /\
  ~ no_lost_update decimal_int_of_str.
Proof.
  cbv zeta.
  assert (H : run_schedule [0; 0; 0; 1; 1; 1; 0; 0; 0; 1; 1; 1]%nat
      (System seeded_world
         [ do_PUT decimal_int_of_str "/api/doc" (update (JInt 0) (JDict one_task));
           do_PUT decimal_int_of_str "/api/doc" (update (JInt 0) (JDict no_tasks)) ]) =
    System
      (World (Some (Json (document 1 at_2 (JDict no_tasks)))) None sample_clock 3
         [ EvMkdir; EvExists; EvRead; EvMkdir; EvExists; EvRead;
           EvWriteTmp (document 1 at_1 (JDict one_task)); EvReplace;
           EvWriteTmp (document 1 at_2 (JDict no_tasks)); EvReplace ])
      [ Ret (JsonResponse 200 (document 1 at_1 (JDict one_task)));
        Ret (JsonResponse 200 (document 1 at_2 (JDict no_tasks))) ])
    by (vm_compute; reflexivity).
  rewrite H. split; [reflexivity |]. split; [reflexivity |].
  intros Hclaim.
  destruct (Hclaim _ seeded_world _ (seed at_0) 0 one_task no_tasks _ _
              eq_refl eq_refl H) as [[_ H409] | [H409 _]];
    simpl in H409; discriminate H409.
Qed.

Lemma serial_writers_one_commits_witness :
  exists w',
    run_schedule (replicate 6 0%nat ++ replicate 3 1%nat)
      (System seeded_world
         [ do_PUT decimal_int_of_str "/api/doc" (update (JInt 0) (JDict one_task));
           do_PUT decimal_int_of_str "/api/doc" (update (JInt 0) (JDict no_tasks)) ]) =
    System w'
      [ Ret (JsonResponse 200 (document 1 at_1 (JDict one_task)));
        Ret (JsonResponse 409
               (dict [ ("error", JStr "conflict");
                       ("current", document 1 at_1 (JDict one_task)) ])) ] /\
    doc_file w' = Some (Json (document 1 at_1 (JDict one_task))) /\
    is_document (document 1 at_1 (JDict one_task)) 1 at_1 (JDict one_task).
Proof.
  apply (serial_writers_one_commits decimal_int_of_str seeded_world (seed at_0)
           (update_fields (JInt 0) (JDict one_task))
           (update_fields (JInt 0) (JDict no_tasks))
           one_task no_tasks (JInt 0) (JInt 0) 0 6 3
           eq_refl eq_refl eq_refl eq_refl eq_refl eq_refl eq_refl eq_refl
           eq_refl).
  - vm_compute. apply le_n.
  - vm_compute. apply le_n.
Defined.

Lemma revision_counts_accepted_writes_witness :
  let pre :=
    [ GetDocument;
      ProposeUpdate (update (JInt 0) (JDict one_task));
      ProposeUpdate (update (JInt 0) (JDict no_tasks));
      ProposeUpdate (update (JStr "1") (JDict no_tasks));
      ProposeUpdate (update (JInt 1) (JDict surrogate_tasks));
      ProposeUpdate (update (JInt 1) (JDict no_tasks)) ] in
  let log := fst (serve_all decimal_int_of_str no_static_files pre seeded_world) in
  let w1 := snd (serve_all decimal_int_of_str no_static_files pre seeded_world) in
  accepted_writes log = 2%nat /\
  stored_revision decimal_int_of_str w1 = Some (Z.of_nat (accepted_writes log)) /\
  committed_revisions log = Z.of_nat <$> seq 1 (accepted_writes log).
Proof.
  cbv zeta. split; [vm_compute; reflexivity |].
  pose proof (revision_counts_accepted_writes decimal_int_of_str no_static_files
                [ GetDocument;
                  ProposeUpdate (update (JInt 0) (JDict one_task));
                  ProposeUpdate (update (JInt 0) (JDict no_tasks));
                  ProposeUpdate (update (JStr "1") (JDict no_tasks));
                  ProposeUpdate (update (JInt 1) (JDict surrogate_tasks));
                  ProposeUpdate (update (JInt 1) (JDict no_tasks)) ]
                GetInProgress seeded_world at_0 eq_refl) as H.
  cbv zeta in H. destruct H as (_ & Hrev & _ & Hlist & _).
  split; [exact Hrev | exact Hlist].
Defined.

(** C5 as stated fails: the requests of a sequence are served by threads
    that nothing orders.  When two propose-updates on revision 0 both read
    the store before either writes, both are accepted and both are answered
    with revision 1; after two accepted writes the stored revision is 1. *)
Lemma interleaved_writes_share_revision :
  let s :=
    run_schedule [0; 0; 0; 1; 1; 1; 0; 0; 0; 1; 1; 1]%nat
      (System seeded_world
         [ do_PUT decimal_int_of_str "/api/doc" (update (JInt 0) (JDict one_task));
           do_PUT decimal_int_of_str "/api/doc" (update (JInt 0) (JDict no_tasks)) ]) in
  exists first second,
    threads s = [ Ret first; Ret second ] /\
    accepted (ProposeUpdate (update (JInt 0) (JDict one_task)), Ok first) = true /\
    accepted (ProposeUpdate (update (JInt 0) (JDict no_tasks)), Ok second) = true /\
    response_revision (Ok first) = Some 1 /\
    response_revision (Ok second) = Some 1 /\
    stored_revision decimal_int_of_str seeded_world = Some 0 /\
    stored_revision decimal_int_of_str (shared s) = Some 1.
Proof.
  cbv zeta. do 2 eexists.
  split; [vm_compute; reflexivity |].
  repeat split; vm_compute; reflexivity.
Qed.



Lemma first_get_seeds_once_witness :
  exists w1,
    run handle_get_doc empty_world = (Ok (JsonResponse 200 (seed at_0)), w1) /\
    doc_file w1 = Some (Json (seed at_0)) /\
    fst (run handle_get_doc w1) = Ok (JsonResponse 200 (seed at_0)).
Proof.
  destruct (first_get_seeds_once empty_world eq_refl)
    as (w1 & Hrun & Hdoc & _ & _ & _ & Hagain & _).
  exists w1. split; [exact Hrun |]. split; [exact Hdoc |].
  rewrite (Hagain w1 eq_refl). reflexivity.
Defined.

Lemma put_get_round_trip_witness :
  exists fetched w'',
    run handle_get_doc
      (snd (run (handle_put_doc decimal_int_of_str
                   (update (JInt 0) (JDict one_task))) seeded_world)) =
    (Ok (JsonResponse 200 fetched), w'') /\
    py_get fetched "doc" JNull = Ok (JDict one_task) /\
    py_get fetched "revision" JNull = Ok (JInt (0 + 1)).
Proof.
  destruct (put_get_round_trip decimal_int_of_str seeded_world
              (snd (run (handle_put_doc decimal_int_of_str
                           (update (JInt 0) (JDict one_task))) seeded_world))
              (update_fields (JInt 0) (JDict one_task)) one_task (JInt 0) 0
              (JsonResponse 200 (document 1 at_1 (JDict one_task)))
              eq_refl eq_refl eq_refl)
    as (fetched & fields & w'' & Hget & _ & _ & _ & Hdoc & Hrev & _).
  - vm_compute. reflexivity.
  - reflexivity.
  - exists fetched, w''. auto.
Defined.

Lemma inprogress_missing_keys_witness :
  run handle_get_inprogress bare_world =
  (Ok (JsonResponse 200 (JList [])),
   logged [EvMkdir; EvExists; EvRead] bare_world).
Proof.
  exact (inprogress_missing_keys bare_world {[ "revision" := JInt 3 ]}
           eq_refl (or_introl eq_refl)).
Defined.

(** * Further properties of the handlers *)

(** ** The error boundary of [do_GET] and [do_PUT] *)

Lemma run_handle_errors (m : prog response) (w : world) :
  exists resp,
    run (handle_errors m) w = (Ok resp, snd (run m w)) /\
    match fst (run m w) with
    | Ok r => resp = r
    | Raise (ApiError status message) =>
        if Z.leb 500 status then resp = TextResponse 500 "Server error"
        else resp = JsonResponse status (dict [ ("error", JStr message) ])
    | Raise (PyError _) => resp = TextResponse 500 "Server error"
    end.
Proof.
  unfold handle_errors. rewrite run_catch.
  destruct (run m w) as [[r | [status message | e]] w']; simpl.
  - eauto.
  - destruct (Z.leb 500 status); eauto.
  - eauto.
Qed.

Section Routing.

Variable int_of_str : string -> option Z.
Variable serve_static_file : string -> prog response.

(** X2. [do_PUT] knows one path: any other is answered 404 and the store
    is not touched, whatever the body. *)
Theorem put_unknown_path (path : string) (req : raw_body) (w : world) :
  path <> "/api/doc" ->
  run (do_PUT int_of_str path req) w =
  (Ok (JsonResponse 404 (dict [ ("error", JStr "Not found") ])), w).
Proof.
  intros Hpath. unfold do_PUT.
  apply String.eqb_neq in Hpath. rewrite Hpath. reflexivity.
Qed.

(** X3. A path with a slash beyond its first character that is neither an
    API path nor under [/static/] is answered 404: it is not handed to the
    file server and the store is not touched. *)
Theorem get_nested_path_not_found (path : string) (w : world) :
  path <> "/api/health" ->
  path <> "/api/doc" ->
  path <> "/api/tasks/inprogress" ->
  String.prefix "/static/" path = false ->
  String.index 1 "/" path <> None ->
  run (do_GET serve_static_file path) w =
  (Ok (JsonResponse 404 (dict [ ("error", JStr "Not found") ])), w).
Proof.
  intros H1 H2 H3 Hstatic Hslash. unfold do_GET.
  apply String.eqb_neq in H1, H2, H3. rewrite H1, H2, H3, Hstatic.
  assert (Hroot : String.eqb path "/" = false).
  { apply String.eqb_neq. intros ->. apply Hslash. reflexivity. }
  rewrite Hroot.
  destruct (String.index 1 "/" path) as [i |]; [| contradiction].
  rewrite andb_false_r. reflexivity.
Qed.

Lemma substring_all (s : string) : String.substring 0 (String.length s) s = s.
Proof. induction s as [| c s IH]; simpl; [reflexivity | now rewrite IH]. Qed.

Lemma prefix_has_slash (name : string) :
  String.prefix "static/" name = true -> String.index 0 "/" name <> None.
Proof.
  intros H.
  destruct name as [| c1 [| c2 [| c3 [| c4 [| c5 [| c6 [| c7 rest]]]]]]];
    simpl in H; try discriminate;
    repeat match type of H with
           | (if ?d then _ else _) = true =>
               destruct d; [subst | discriminate]
           end; try discriminate.
  simpl. destruct rest; discriminate.
Qed.

(** X4. A one-segment path [/name] is served as the static file [name]:
    the convenience route of [do_GET]. *)
Theorem get_single_segment_static (name : string) :
  name <> "" ->
  String.index 0 "/" name = None ->
  do_GET serve_static_file (String "/" name) =
  handle_errors (serve_static_file name).
Proof.
  intros Hne Hslash. unfold do_GET.
  assert (Hneq : forall api, String.index 0 "/" api <> None ->
                             String.eqb (String "/" name) (String "/" api) = false).
  { intros api Hapi. apply String.eqb_neq. intros [= ->]. contradiction. }
  rewrite (Hneq "api/health"), (Hneq "api/doc"), (Hneq "api/tasks/inprogress")
    by discriminate.
  assert (Hroot : String.eqb (String "/" name) "/" = false).
  { apply String.eqb_neq. intros [= ->]. contradiction. }
  rewrite Hroot.
  assert (Hstatic : String.prefix "/static/" (String "/" name) = false).
  { destruct (String.prefix "/static/" (String "/" name)) eqn:E; [| reflexivity].
    exfalso. apply (prefix_has_slash name); [| exact Hslash]. exact E. }
  rewrite Hstatic.
  assert (Hlen : Nat.ltb 1 (String.length (String "/" name)) = true).
  { destruct name; [contradiction | reflexivity]. }
  rewrite Hlen.
  change (String.index 1 "/" (String "/" name))
    with (match String.index 0 "/" name with
          | Some n => Some (S n) | None => None end).
  rewrite Hslash. cbn [String.prefix andb negb bool_decide].
  change (String.length (String "/" name) - 1)%nat
    with (String.length name - 0)%nat.
  rewrite Nat.sub_0_r.
  change (String.substring 1 (String.length name) (String "/" name))
    with (String.substring 0 (String.length name) name).
  rewrite substring_all.
  destruct (ascii_dec "/" "/") as [_ | Habs]; [| now destruct Habs].
  destruct name; reflexivity.
Qed.

End Routing.

(** ** Fetching and proposing, on any store *)

Lemma replaces_app (l1 l2 : list fs_event) :
  replaces (l1 ++ l2) = (replaces l1 + replaces l2)%nat.
Proof. unfold replaces. now rewrite List.filter_app, length_app. Qed.

Section Store.

Variable int_of_str : string -> option Z.
Variable serve_static_file : string -> prog response.




Lemma classic_body (req : raw_body) :
  (exists m, req = BodyJson (JDict m)) \/ (forall m, req <> BodyJson (JDict m)).
Proof.
  destruct req as [| | | j]; try (right; discriminate).
  destruct j; try (right; discriminate). left. eauto.
Qed.

Lemma current_revision_raises (cur : json) (e : exn) :
  current_revision int_of_str cur = Raise e -> exists pe, e = PyError pe.
Proof.
  unfold current_revision.
  destruct cur; simpl; try (intros [= <-]; eauto).
  destruct (default (JInt 0) (d !! "revision")) as [| b | n | f | s | l | d'];
    simpl; try (intros [= <-]; eauto); try discriminate.
  - destruct f; simpl; try discriminate; intros [= <-]; eauto.
  - destruct (int_of_str s); [discriminate | intros [= <-]; eauto].
Qed.

(** The outcomes of a propose-update on a stored Document: it commits; or
    it is turned down with the store only read; or its dump breaks off. *)
Lemma do_PUT_outcome (w : world) (cur : json) (req : raw_body) :
  doc_file w = Some (Json cur) ->
  exists resp w',
    run (do_PUT int_of_str "/api/doc" req) w = (Ok resp, w') /\
    ((exists r m d,
        let next :=
          document (r + 1) (isoformat_seconds (clock w (ticks w))) (JDict d) in
        req = BodyJson (JDict m) /\ m !! "doc" = Some (JDict d) /\
        encodable (JDict d) = true /\
        current_revision int_of_str cur = Ok r /\
        resp = JsonResponse 200 next /\
        doc_file w' = Some (Json next) /\
        tmp_file w' = None /\
        fs_log w' =
          (fs_log w ++ [EvMkdir; EvExists; EvRead; EvWriteTmp next;
                        EvReplace])%list) \/
     ((status_of resp = 400 \/ status_of resp = 409 \/ status_of resp = 500) /\
      w' = logged [EvMkdir; EvExists; EvRead] w) \/
     (exists r m d,
        let next :=
          document (r + 1) (isoformat_seconds (clock w (ticks w))) (JDict d) in
        req = BodyJson (JDict m) /\ m !! "doc" = Some (JDict d) /\
        encodable (JDict d) = false /\
        current_revision int_of_str cur = Ok r /\
        resp = TextResponse 500 "Server error" /\
        w' = World (Some (Json cur)) (Some Truncated) (clock w) (S (ticks w))
               (fs_log w ++ [EvMkdir; EvExists; EvRead; EvWriteTmp next]))).
Proof.
  intros Hcur.
  assert (Hw : logged [EvRead] (logged [EvMkdir; EvExists] w) =
               logged [EvMkdir; EvExists; EvRead] w).
  { unfold logged; simpl. now rewrite <- app_assoc. }
  pose proof (run_ensure_seed_doc_present w cur Hcur) as Hseed.
  destruct (classic_body req) as [(m & ->) | Hreq].
  2: { destruct (malformed_body_rejected int_of_str w cur req Hcur Hreq)
         as (resp & Hrun & Hst).
       exists resp, (logged [EvMkdir; EvExists; EvRead] w).
       split; [exact Hrun |]. right. left. split; [| reflexivity].
       destruct req as [| | | j]; try (subst resp; simpl); auto. }
  rewrite run_do_PUT.
  destruct (isinstance_int (default JNull (m !! "baseRevision"))) eqn:Hb.
  - destruct (isinstance_dict (default JNull (m !! "doc"))) eqn:Hd.
    + destruct (valid_update_fields m Hb Hd)
        as (b & n & payload & Hbl & Hint & Hdl).
      rewrite (run_handle_put_doc_valid int_of_str w _ cur m payload b n
                 Hseed Hcur Hbl Hint Hdl).
      destruct (current_revision int_of_str cur) as [r | e] eqn:Hrev.
      * destruct (Z.eqb n r);
          [cbv zeta; destruct (encodable (JDict payload)) eqn:Henc |].
        -- do 2 eexists. split; [reflexivity |]. left.
           exists r, m, payload. cbv zeta. repeat split; try assumption.
           simpl. now rewrite <- app_assoc.
        -- do 2 eexists. split; [reflexivity |]. right. right.
           exists r, m, payload. cbv zeta. repeat split; try assumption.
           simpl. now rewrite <- app_assoc.
        -- do 2 eexists. split; [reflexivity |]. right. left.
           rewrite Hw. simpl. auto.
      * destruct (current_revision_raises cur e Hrev) as [pe ->].
        do 2 eexists. split; [reflexivity |]. right. left.
        rewrite Hw. simpl. auto.
    + rewrite (run_handle_put_doc_invalid int_of_str w _ cur m Hseed Hcur
                 (or_intror Hd)).
      rewrite Hb. simpl.
      do 2 eexists. split; [reflexivity |]. right. left. rewrite Hw. simpl. auto.
  - rewrite (run_handle_put_doc_invalid int_of_str w _ cur m Hseed Hcur
               (or_introl Hb)).
    rewrite Hb. simpl.
    do 2 eexists. split; [reflexivity |]. right. left. rewrite Hw. simpl. auto.
Qed.

(** X6. A propose-update on a stored Document is answered 200, 400, 409 or
    500.  Only the 200 changes [doc.json]: it stores exactly the Document it
    returns, whose fields are the stored revision plus 1, the timestamp of
    the clock's reading and the [doc] of the request, and leaves no temporary
    file.  A 400 or a 409 has only read the store.  A 500 has only read it
    too, or has read the clock and left the beginning of a dump in the
    temporary file; [os.replace] has not run. *)
Theorem put_writes_only_on_success (w : world) (cur : json) (req : raw_body) :
  doc_file w = Some (Json cur) ->
  exists resp w',
    run (do_PUT int_of_str "/api/doc" req) w = (Ok resp, w') /\
    (status_of resp = 200 \/ status_of resp = 400 \/
     status_of resp = 409 \/ status_of resp = 500) /\
    (status_of resp = 200 ->
     exists r m d next,
       req = BodyJson (JDict m) /\ m !! "doc" = Some (JDict d) /\
       current_revision int_of_str cur = Ok r /\
       resp = JsonResponse 200 next /\
       is_document next (r + 1) (isoformat_seconds (clock w (ticks w)))
         (JDict d) /\
       doc_file w' = Some (Json next) /\
       tmp_file w' = None) /\
    (status_of resp <> 200 ->
     doc_file w' = Some (Json cur) /\
     replaces (fs_log w') = replaces (fs_log w)) /\
    (status_of resp = 400 \/ status_of resp = 409 ->
     w' = logged [EvMkdir; EvExists; EvRead] w) /\
    (status_of resp = 500 ->
     w' = logged [EvMkdir; EvExists; EvRead] w \/
     (tmp_file w' = Some Truncated /\ ticks w' = S (ticks w) /\
      exists next,
        fs_log w' =
          (fs_log w ++ [EvMkdir; EvExists; EvRead; EvWriteTmp next])%list)).
Proof.
  intros Hcur.
  destruct (do_PUT_outcome w cur req Hcur)
    as (resp & w' & Hrun &
        [(r & m & d & Hreq & Hd & _ & Hrev & -> & Hdoc & Htmp & _)
        | [(Hst & ->)
          | (r & m & d & Hreq & Hd & _ & Hrev & -> & ->)]]).
  - do 2 eexists. split; [exact Hrun |]. split; [left; reflexivity |].
    split.
    { intros _. exists r, m, d. eexists. repeat split; try eassumption.
      apply document_is_document. }
    split; [intros Hne; now destruct Hne |].
    split; [intros [H | H]; discriminate H | intros H; discriminate H].
  - exists resp, (logged [EvMkdir; EvExists; EvRead] w).
    split; [exact Hrun |]. split; [right; exact Hst |].
    split.
    { intros H200. exfalso. rewrite H200 in Hst.
      destruct Hst as [H | [H | H]]; discriminate H. }
    split.
    { intros _. split; [exact Hcur |].
      simpl. rewrite replaces_app. unfold replaces at 2. simpl. lia. }
    split; [reflexivity | left; reflexivity].
  - do 2 eexists. split; [exact Hrun |].
    split; [right; right; right; reflexivity |].
    split; [intros H; discriminate H |].
    split.
    { intros _. split; [reflexivity |].
      simpl. rewrite replaces_app. unfold replaces at 2. simpl. lia. }
    split; [intros [H | H]; discriminate H |].
    intros _. right. split; [reflexivity |]. split; [reflexivity |].
    eexists. reflexivity.
Qed.

(** X8. Of the body only [baseRevision] and [doc] are read: two objects
    that agree on these two keys are treated alike, on any store. *)
Theorem put_ignores_other_fields (m m' : gmap string json) (w : world) :
  m !! "baseRevision" = m' !! "baseRevision" ->
  m !! "doc" = m' !! "doc" ->
  run (do_PUT int_of_str "/api/doc" (BodyJson (JDict m))) w =
  run (do_PUT int_of_str "/api/doc" (BodyJson (JDict m'))) w.
Proof.
  intros Hb Hd. rewrite !run_do_PUT. unfold handle_put_doc. rewrite !run_bind.
  destruct (run ensure_seed_doc w) as [[[] | e] w1]; [| reflexivity].
  destruct w1 as [[[cur |] |] tmp c k l]; simpl; try reflexivity.
  rewrite Hb, Hd. reflexivity.
Qed.

End Store.

(** ** Stored Documents off the data model *)

Section OddStore.

Variable int_of_str : string -> option Z.
Variable serve_static_file : string -> prog response.


(** X10. When the stored value is not an object, or its [revision] is
    null, a list, an object, NaN or an infinity, a well-formed
    propose-update is answered 500 and nothing is written; a malformed one is
    still answered 400, since the body is validated first. *)
Theorem put_unreadable_revision (w : world) (cur : json)
    (m : gmap string json) :
  doc_file w = Some (Json cur) ->
  unreadable_revision cur ->
  run (do_PUT int_of_str "/api/doc" (BodyJson (JDict m))) w =
  (Ok (if isinstance_int (default JNull (m !! "baseRevision")) then
         if isinstance_dict (default JNull (m !! "doc")) then
           TextResponse 500 "Server error"
         else JsonResponse 400 (dict [ ("error", JStr "doc must be an object") ])
       else JsonResponse 400
              (dict [ ("error", JStr "baseRevision must be an integer") ])),
   logged [EvMkdir; EvExists; EvRead] w).
Proof.
  intros Hcur Hbad.
  assert (Hw : logged [EvRead] (logged [EvMkdir; EvExists] w) =
               logged [EvMkdir; EvExists; EvRead] w).
  { unfold logged; simpl. now rewrite <- app_assoc. }
  pose proof (run_ensure_seed_doc_present w cur Hcur) as Hseed.
  rewrite run_do_PUT.
  destruct (isinstance_int (default JNull (m !! "baseRevision"))) eqn:Hb.
  - destruct (isinstance_dict (default JNull (m !! "doc"))) eqn:Hd.
    + destruct (valid_update_fields m Hb Hd)
        as (b & n & payload & Hbl & Hint & Hdl).
      rewrite (run_handle_put_doc_valid int_of_str w _ cur m payload b n
                 Hseed Hcur Hbl Hint Hdl).
      assert (Hraise : exists pe,
                 current_revision int_of_str cur = Raise (PyError pe)).
      { unfold current_revision.
        destruct Hbad as [Hnd | (c & v & -> & Hv & Hkind)].
        - destruct cur; try discriminate; simpl; eauto.
        - simpl. rewrite Hv. simpl.
          destruct Hkind as [-> | [[l ->] | [[d ->] | [-> | [s ->]]]]];
            simpl; eauto. }
      destruct Hraise as [pe ->]. rewrite Hw. reflexivity.
    + rewrite (run_handle_put_doc_invalid int_of_str w _ cur m Hseed Hcur
                 (or_intror Hd)).
      rewrite Hb, Hw. reflexivity.
  - rewrite (run_handle_put_doc_invalid int_of_str w _ cur m Hseed Hcur
               (or_introl Hb)).
    rewrite Hb, Hw. reflexivity.
Qed.

End OddStore.

(** ** The in-progress view on any payload *)

Lemma inprogress_of_in_progress (ts : list json) :
  Forall (fun t => isinstance_dict t = true) ts ->
  inprogress_of ts = Ok (List.filter in_progress ts).
Proof.
  induction 1 as [| t ts Ht _ IH]; [reflexivity |].
  destruct t; try discriminate. simpl. rewrite IH. simpl.
  unfold in_progress. simpl. destruct (truthy _); reflexivity.
Qed.

Lemma inprogress_of_not_object (ts : list json) :
  List.Exists (fun t => isinstance_dict t = false) ts ->
  inprogress_of ts = Raise (PyError AttributeError).
Proof.
  induction 1 as [t ts Ht | t ts _ IH].
  - destruct t; try discriminate; reflexivity.
  - simpl. rewrite IH. destruct t; reflexivity.
Qed.

Section View.

Variable serve_static_file : string -> prog response.

Lemma run_get_inprogress (w : world) (payload : json) :
  doc_file w = Some (Json payload) ->
  run (do_GET serve_static_file "/api/tasks/inprogress") w =
  run (handle_errors
         (lift (result_bind (py_get payload "doc" (JDict ∅)) (fun doc =>
                result_bind (py_get doc "tasks" (JList [])) (fun tasks =>
                result_bind (py_iter tasks) (fun items =>
                result_bind (inprogress_of items) (fun inprogress =>
                Ok (JsonResponse 200 (JList inprogress)))))))))
      (logged [EvMkdir; EvExists; EvRead] w).
Proof.
  intros Hcur.
  change (do_GET serve_static_file "/api/tasks/inprogress")
    with (handle_errors handle_get_inprogress).
  unfold handle_errors. rewrite !run_catch.
  rewrite (run_handle_get_inprogress_present w payload Hcur), run_lift.
  reflexivity.
Qed.


(** X12. One task that is not an object spoils the view: the request is
    answered 500, with no partial list, and the store is left as it was. *)
Theorem inprogress_task_not_object (w : world) (p d : gmap string json)
    (ts : list json) :
  doc_file w = Some (Json (JDict p)) ->
  p !! "doc" = Some (JDict d) ->
  d !! "tasks" = Some (JList ts) ->
  List.Exists (fun t => isinstance_dict t = false) ts ->
  run (do_GET serve_static_file "/api/tasks/inprogress") w =
  (Ok (TextResponse 500 "Server error"), logged [EvMkdir; EvExists; EvRead] w).
Proof.
  intros Hcur Hp Hd Hts.
  rewrite (run_get_inprogress w _ Hcur). simpl. rewrite Hp. simpl.
  rewrite Hd. simpl. rewrite (inprogress_of_not_object ts Hts). reflexivity.
Qed.

(** X13. When [tasks] is not a list: null, a boolean and a number are not
    iterable and give 500; a string or an object is iterated, so the empty
    string and the empty object give the empty array and any other gives
    500. *)
Theorem inprogress_tasks_not_list (w : world) (p d : gmap string json)
    (v : json) :
  doc_file w = Some (Json (JDict p)) ->
  p !! "doc" = Some (JDict d) ->
  d !! "tasks" = Some v ->
  (forall l, v <> JList l) ->
  run (do_GET serve_static_file "/api/tasks/inprogress") w =
  (Ok match v with
      | JStr EmptyString => JsonResponse 200 (JList [])
      | JDict keys =>
          if Nat.eqb (size keys) 0 then JsonResponse 200 (JList [])
          else TextResponse 500 "Server error"
      | _ => TextResponse 500 "Server error"
      end,
   logged [EvMkdir; EvExists; EvRead] w).
Proof.
  intros Hcur Hp Hd Hv.
  rewrite (run_get_inprogress w _ Hcur). simpl. rewrite Hp. simpl.
  rewrite Hd. simpl.
  destruct v as [| b | n | f | s | l | keys]; try reflexivity.
  - destruct s; reflexivity.
  - now destruct (Hv l).
  - simpl. rewrite <- length_map_to_list.
    destruct (map_to_list keys) as [| [k x] rest]; reflexivity.
Qed.

(** X14. The view reads and never writes: on a store that holds a value,
    whatever it is, the request is answered 200 or 500 and only the read is
    logged; on an empty store it seeds first and answers with the two seed
    tasks. *)
Theorem inprogress_read_only (w : world) :
  (forall cur, doc_file w = Some (Json cur) ->
     exists resp,
       run (do_GET serve_static_file "/api/tasks/inprogress") w =
       (Ok resp, logged [EvMkdir; EvExists; EvRead] w) /\
       (status_of resp = 200 \/ resp = TextResponse 500 "Server error")) /\
  (doc_file w = None ->
     exists w',
       run (do_GET serve_static_file "/api/tasks/inprogress") w =
       (Ok (JsonResponse 200 (JList seed_tasks)), w') /\
       doc_file w' = Some (Json (seed (isoformat_seconds (clock w (ticks w)))))).
Proof.
  split.
  - intros cur Hcur. rewrite (run_get_inprogress w _ Hcur).
    destruct (result_bind (py_get cur "doc" (JDict ∅)) _)
      as [resp | [st msg | e]] eqn:Hres.
    + eexists. split; [reflexivity |]. left.
      revert Hres. clear.
      destruct (py_get cur "doc" (JDict ∅)) as [doc |]; [| discriminate]. simpl.
      destruct (py_get doc "tasks" (JList [])) as [tasks |]; [| discriminate].
      simpl. destruct (py_iter tasks) as [items |]; [| discriminate]. simpl.
      destruct (inprogress_of items); [| discriminate]. intros [= <-]. reflexivity.
    + exfalso. revert Hres. clear.
      assert (Hget : forall o k dflt st msg,
                 py_get o k dflt <> Raise (ApiError st msg)).
      { intros o k dflt st' msg'. destruct o; discriminate. }
      destruct (py_get cur "doc" (JDict ∅)) as [doc |] eqn:E1;
        [| intros [= ->]; now apply Hget in E1]. simpl.
      destruct (py_get doc "tasks" (JList [])) as [tasks |] eqn:E2;
        [| intros [= ->]; now apply Hget in E2]. simpl.
      destruct (py_iter tasks) as [items |] eqn:E3;
        [| intros [= ->]; destruct tasks; discriminate]. simpl.
      destruct (inprogress_of items) as [l |] eqn:E4; [discriminate |].
      intros [= ->]. clear -E4 Hget. revert E4.
      induction items as [| t items IH]; [discriminate |]. simpl.
      destruct (py_get t "done" JNull) eqn:E; [| intros [= ->]; now apply Hget in E].
      simpl. destruct (inprogress_of items); [discriminate |].
      simpl. intros [= ->]. now apply IH.
    + eexists. split; [reflexivity |]. right. reflexivity.
  - intros Hnone.
    change (do_GET serve_static_file "/api/tasks/inprogress")
      with (handle_errors handle_get_inprogress).
    unfold handle_errors, handle_get_inprogress.
    rewrite run_catch, run_bind, (run_ensure_seed_doc_absent w Hnone).
    eexists. split; reflexivity.
Qed.

End View.

(** ** Requests in a row *)

Section Protocol.

Variable int_of_str : string -> option Z.
Variable serve_static_file : string -> prog response.

(** X15. The view follows the write: once a propose-update has committed a
    payload that can be written and whose tasks are objects, the next
    in-progress request returns the tasks of that payload whose [done] is
    falsy. *)
Theorem put_then_inprogress (w : world) (cur : json)
    (m payload : gmap string json) (b : json) (r : Z) (ts : list json) :
  doc_file w = Some (Json cur) ->
  current_revision int_of_str cur = Ok r ->
  m !! "baseRevision" = Some b ->
  int_value b = Some r ->
  m !! "doc" = Some (JDict payload) ->
  encodable (JDict payload) = true ->
  payload !! "tasks" = Some (JList ts) ->
  Forall (fun t => isinstance_dict t = true) ts ->
  exists next w1 w2,
    run (do_PUT int_of_str "/api/doc" (BodyJson (JDict m))) w =
      (Ok (JsonResponse 200 next), w1) /\
    is_document next (r + 1) (isoformat_seconds (clock w (ticks w)))
      (JDict payload) /\
    run (do_GET serve_static_file "/api/tasks/inprogress") w1 =
      (Ok (JsonResponse 200 (JList (List.filter in_progress ts))), w2) /\
    doc_file w2 = Some (Json next).
Proof.
  intros Hcur Hrev Hb Hint Hdoc Henc Htasks Hts.
  rewrite run_do_PUT.
  rewrite (run_handle_put_doc_valid int_of_str w _ cur m payload b r
             (run_ensure_seed_doc_present w cur Hcur) Hcur Hb Hint Hdoc).
  rewrite Hrev, Z.eqb_refl, Henc. cbv zeta.
  do 3 eexists. split; [reflexivity |].
  split; [apply document_is_document |].
  erewrite (run_get_inprogress serve_static_file) by reflexivity.
  split.
  - change (py_get (document ?r ?t ?d) "doc" (JDict ∅)) with (Ok d).
    simpl. rewrite Htasks. simpl.
    rewrite (inprogress_of_in_progress ts Hts). reflexivity.
  - reflexivity.
Qed.


End Protocol.

(** ** A fetch beside a commit *)








Section Beside.

Variable int_of_str : string -> option Z.
Variable serve_static_file : string -> prog response.








End Beside.

(** ** The shape of what is stored *)

Section Shape.

Variable int_of_str : string -> option Z.
Variable serve_static_file : string -> prog response.

Lemma serve_step_shape (rq : request) (w : world) (r : Z) (t : string)
    (d : gmap string json) :
  doc_file w = Some (Json (document r t (JDict d))) ->
  tmp_file w = None \/ tmp_file w = Some Truncated ->
  exists resp w' r' t' d',
    run (serve int_of_str serve_static_file rq) w = (Ok resp, w') /\
    doc_file w' = Some (Json (document r' t' (JDict d'))) /\
    (tmp_file w' = None \/ tmp_file w' = Some Truncated).
Proof.
  intros Hcur Htmp. destruct rq as [| req |].
  - destruct (run_handle_errors handle_get_doc w) as (resp & Hrun & _).
    change (serve int_of_str serve_static_file GetDocument)
      with (handle_errors handle_get_doc).
    rewrite Hrun, (run_handle_get_doc_present w _ Hcur). simpl.
    exists resp. do 4 eexists. split; [reflexivity |]. split; [exact Hcur | exact Htmp].
  - change (serve int_of_str serve_static_file (ProposeUpdate req))
      with (do_PUT int_of_str "/api/doc" req).
    destruct (do_PUT_outcome int_of_str w _ req Hcur)
      as (resp & w' & Hrun &
          [(r' & m' & d' & _ & _ & _ & _ & _ & Hdoc & Ht & _)
          | [(_ & ->) | (r' & m' & d' & _ & _ & _ & _ & _ & ->)]]).
    + exists resp, w'. do 3 eexists. split; [exact Hrun |].
      split; [exact Hdoc | left; exact Ht].
    + exists resp. do 4 eexists. split; [exact Hrun |].
      split; [exact Hcur | exact Htmp].
    + exists resp. do 4 eexists. split; [exact Hrun |].
      split; [reflexivity | right; reflexivity].
  - change (serve int_of_str serve_static_file GetInProgress)
      with (do_GET serve_static_file "/api/tasks/inprogress").
    rewrite (run_get_inprogress serve_static_file w _ Hcur).
    match goal with
    | |- context [ run (handle_errors ?m) ?w1 ] =>
        destruct (run_handle_errors m w1) as (resp & Hrun & _); rewrite Hrun
    end.
    rewrite run_lift. simpl.
    exists resp. do 4 eexists. split; [reflexivity |]. split; [exact Hcur | exact Htmp].
Qed.

(** X19. Served one after the other from the seed Document, requests of
    any kind and content are all answered, and what they leave in [doc.json]
    is always an object with exactly the fields [revision], an integer,
    [updatedAt], a string, and [doc], an object.  The temporary file is gone,
    or holds the beginning of a dump that broke off. *)
Theorem stored_document_shape (rqs : list request) (w : world) (t : string) :
  doc_file w = Some (Json (seed t)) ->
  tmp_file w = None ->
  let log := fst (serve_all int_of_str serve_static_file rqs w) in
  let w' := snd (serve_all int_of_str serve_static_file rqs w) in
  (exists stored r t' d,
     doc_file w' = Some (Json stored) /\ is_document stored r t' (JDict d)) /\
  (tmp_file w' = None \/ tmp_file w' = Some Truncated) /\
  Forall (fun x => exists resp, snd x = Ok resp) log.
Proof.
  intros Hseed Htmp.
  assert (Hgen : forall rqs w r t d,
    doc_file w = Some (Json (document r t (JDict d))) ->
    tmp_file w = None \/ tmp_file w = Some Truncated ->
    (exists r' t' d',
       doc_file (snd (serve_all int_of_str serve_static_file rqs w)) =
       Some (Json (document r' t' (JDict d')))) /\
    (tmp_file (snd (serve_all int_of_str serve_static_file rqs w)) = None \/
     tmp_file (snd (serve_all int_of_str serve_static_file rqs w)) =
       Some Truncated) /\
    Forall (fun x => exists resp, snd x = Ok resp)
      (fst (serve_all int_of_str serve_static_file rqs w))).
  { clear. induction rqs as [| rq rqs IH]; intros w r t d Hcur Htmp.
    - simpl. eauto 6.
    - destruct (serve_step_shape rq w r t d Hcur Htmp)
        as (resp & w1 & r1 & t1 & d1 & Hrun & Hcur1 & Htmp1).
      cbn [serve_all]. rewrite Hrun.
      specialize (IH w1 r1 t1 d1 Hcur1 Htmp1).
      destruct (serve_all int_of_str serve_static_file rqs w1) as [log w2].
      simpl in *. destruct IH as (Hdoc & Ht & Hall).
      split; [exact Hdoc |]. split; [exact Ht |].
      constructor; [simpl; eauto | exact Hall]. }
  destruct (Hgen rqs w 0 t _ Hseed (or_introl Htmp))
    as ((r' & t' & d' & Hdoc) & Ht & Hall).
  split; [| split; [exact Ht | exact Hall]].
  exists (document r' t' (JDict d')), r', t', d'.
  split; [exact Hdoc | apply document_is_document].
Qed.

End Shape.

(** ** The timestamp *)

Lemma digit_inj (a b : N) : digit a = digit b -> (a mod 10 = b mod 10)%N.
Proof.
  unfold digit. intros H. apply (f_equal N_of_ascii) in H.
  assert (Ha : (a mod 10 < 10)%N) by (apply N.mod_upper_bound; discriminate).
  assert (Hb : (b mod 10 < 10)%N) by (apply N.mod_upper_bound; discriminate).
  rewrite !N_ascii_embedding in H by lia. lia.
Qed.

Lemma pad2_inj (a b : N) :
  (a < 100)%N -> (b < 100)%N -> pad2 a = pad2 b -> a = b.
Proof.
  intros Ha Hb H. unfold pad2 in H. injection H as H1 H2.
  apply digit_inj in H1, H2.
  assert (Hqa : (a / 10 < 10)%N) by (apply N.Div0.div_lt_upper_bound; lia).
  assert (Hqb : (b / 10 < 10)%N) by (apply N.Div0.div_lt_upper_bound; lia).
  rewrite !N.mod_small in H1 by assumption.
  rewrite (N.div_mod a 10), (N.div_mod b 10) by discriminate. lia.
Qed.

Lemma pad4_inj (a b : N) :
  (a < 10000)%N -> (b < 10000)%N -> pad4 a = pad4 b -> a = b.
Proof.
  intros Ha Hb H. unfold pad4, pad2 in H. injection H as H3 H2 H1 H0.
  apply digit_inj in H3, H2, H1, H0.
  pose proof (N.div_mod a 10 ltac:(discriminate)).
  pose proof (N.div_mod b 10 ltac:(discriminate)).
  pose proof (N.div_mod (a / 10) 10 ltac:(discriminate)).
  pose proof (N.div_mod (b / 10) 10 ltac:(discriminate)).
  pose proof (N.div_mod (a / 100) 10 ltac:(discriminate)).
  pose proof (N.div_mod (b / 100) 10 ltac:(discriminate)).
  assert (a / 10 / 10 = a / 100)%N by (rewrite N.Div0.div_div; reflexivity).
  assert (b / 10 / 10 = b / 100)%N by (rewrite N.Div0.div_div; reflexivity).
  assert (a / 100 / 10 = a / 1000)%N by (rewrite N.Div0.div_div; reflexivity).
  assert (b / 100 / 10 = b / 1000)%N by (rewrite N.Div0.div_div; reflexivity).
  assert (a / 1000 < 10)%N by (apply N.Div0.div_lt_upper_bound; lia).
  assert (b / 1000 < 10)%N by (apply N.Div0.div_lt_upper_bound; lia).
  rewrite (N.mod_small (a / 1000)) in * by assumption.
  rewrite (N.mod_small (b / 1000)) in * by assumption.
  lia.
Qed.

(** X20. The timestamp of [_utc_now_iso] has 25 characters, and two
    readings of the clock get the same timestamp exactly when they fall in
    the same second. *)
Theorem timestamp_determines_second (t t' : datetime) :
  valid_datetime t -> valid_datetime t' ->
  String.length (isoformat_seconds t) = 25%nat /\
  (isoformat_seconds t = isoformat_seconds t' <-> same_second t t').
Proof.
  intros Ht Ht'. split; [reflexivity |].
  split; [| apply isoformat_same_second].
  destruct t as [y mo d h mi s us], t' as [y' mo' d' h' mi' s' us'].
  unfold valid_datetime, same_second in *. simpl in *.
  unfold isoformat_seconds. simpl.
  intros H.
  assert (H4 : pad4 y = pad4 y' /\ pad2 mo = pad2 mo' /\ pad2 d = pad2 d' /\
               pad2 h = pad2 h' /\ pad2 mi = pad2 mi' /\ pad2 s = pad2 s').
  { unfold pad4, pad2 in *. simpl in H. injection H. intros. subst.
    repeat split; congruence. }
  destruct H4 as (Hy & Hmo & Hd & Hh & Hmi & Hs).
  split; [apply pad4_inj; [lia | lia | exact Hy] |].
  repeat split; apply pad2_inj; try assumption; lia.
Qed.

(** * The further properties at work on sample requests *)

Lemma put_unknown_path_witness :
  run (do_PUT decimal_int_of_str "/api/docs" (update (JInt 0) (JDict no_tasks)))
    empty_world =
  (Ok (JsonResponse 404 (dict [ ("error", JStr "Not found") ])), empty_world).
Proof.
  apply (put_unknown_path decimal_int_of_str "/api/docs"). discriminate.
Defined.

Lemma get_nested_path_not_found_witness :
  run (do_GET no_static_files "/api/unknown") seeded_world =
  (Ok (JsonResponse 404 (dict [ ("error", JStr "Not found") ])), seeded_world).
Proof.
  apply (get_nested_path_not_found no_static_files "/api/unknown");
    try discriminate; reflexivity.
Defined.

Lemma get_single_segment_static_witness :
  do_GET no_static_files "/app.js" = handle_errors (no_static_files "app.js").
Proof.
  apply (get_single_segment_static no_static_files "app.js");
    [discriminate | reflexivity].
Defined.


Lemma put_writes_only_on_success_witness :
  (exists resp w',
     run (do_PUT decimal_int_of_str "/api/doc" (update (JInt 5) (JDict no_tasks)))
       seeded_world = (Ok resp, w') /\
     (status_of resp = 400 \/ status_of resp = 409 ->
      w' = logged [EvMkdir; EvExists; EvRead] seeded_world)) /\
  (exists resp w',
     run (do_PUT decimal_int_of_str "/api/doc"
            (update (JInt 0) (JDict surrogate_tasks)))
       seeded_world = (Ok resp, w') /\
     (status_of resp <> 200 ->
      doc_file w' = Some (Json (seed at_0)) /\
      replaces (fs_log w') = replaces (fs_log seeded_world))).
Proof.
  split.
  - destruct (put_writes_only_on_success decimal_int_of_str seeded_world
                (seed at_0) (update (JInt 5) (JDict no_tasks)) eq_refl)
      as (resp & w' & Hrun & _ & _ & _ & Hread & _).
    exists resp, w'. split; [exact Hrun | exact Hread].
  - destruct (put_writes_only_on_success decimal_int_of_str seeded_world
                (seed at_0) (update (JInt 0) (JDict surrogate_tasks)) eq_refl)
      as (resp & w' & Hrun & _ & _ & Hkeep & _).
    exists resp, w'. split; [exact Hrun | exact Hkeep].
Defined.

Lemma put_ignores_other_fields_witness :
  run (do_PUT decimal_int_of_str "/api/doc"
         (BodyJson (JDict (update_with_note (JInt 0) (JDict no_tasks)))))
    seeded_world =
  run (do_PUT decimal_int_of_str "/api/doc" (update (JInt 0) (JDict no_tasks)))
    seeded_world.
Proof.
  apply (put_ignores_other_fields decimal_int_of_str
           (update_with_note (JInt 0) (JDict no_tasks))
           (update_fields (JInt 0) (JDict no_tasks)) seeded_world);
    reflexivity.
Defined.


Lemma put_unreadable_revision_witness :
  run (do_PUT decimal_int_of_str "/api/doc" (update (JInt 0) (JDict no_tasks)))
    list_world =
  (Ok (TextResponse 500 "Server error"),
   logged [EvMkdir; EvExists; EvRead] list_world).
Proof.
  exact (put_unreadable_revision decimal_int_of_str list_world (JList [])
           (update_fields (JInt 0) (JDict no_tasks)) eq_refl
           (or_introl eq_refl)).
Defined.


Lemma inprogress_task_not_object_witness :
  run (do_GET no_static_files "/api/tasks/inprogress") mixed_world =
  (Ok (TextResponse 500 "Server error"),
   logged [EvMkdir; EvExists; EvRead] mixed_world).
Proof.
  refine (inprogress_task_not_object no_static_files mixed_world
            (list_to_map
               [ ("doc", JDict {[ "tasks" := JList [ task_b; JStr "c" ] ]});
                 ("updatedAt", JStr at_0); ("revision", JInt 2) ])
            {[ "tasks" := JList [ task_b; JStr "c" ] ]}
            [ task_b; JStr "c" ] eq_refl eq_refl eq_refl _).
  apply Exists_cons_tl, Exists_cons_hd. reflexivity.
Defined.

Lemma inprogress_tasks_not_list_witness :
  run (do_GET no_static_files "/api/tasks/inprogress") text_tasks_world =
  (Ok (JsonResponse 200 (JList [])),
   logged [EvMkdir; EvExists; EvRead] text_tasks_world).
Proof.
  refine (inprogress_tasks_not_list no_static_files text_tasks_world
            (list_to_map
               [ ("doc", JDict {[ "tasks" := JStr "" ]});
                 ("updatedAt", JStr at_0); ("revision", JInt 2) ])
            {[ "tasks" := JStr "" ]} (JStr "") eq_refl eq_refl eq_refl _).
  discriminate.
Defined.

Lemma inprogress_read_only_witness :
  (exists resp,
     run (do_GET no_static_files "/api/tasks/inprogress") list_world =
     (Ok resp, logged [EvMkdir; EvExists; EvRead] list_world)) /\
  (exists w',
     run (do_GET no_static_files "/api/tasks/inprogress") empty_world =
     (Ok (JsonResponse 200 (JList seed_tasks)), w') /\
     doc_file w' = Some (Json (seed at_0))).
Proof.
  destruct (inprogress_read_only no_static_files list_world) as [Hstored _].
  destruct (inprogress_read_only no_static_files empty_world) as [_ Hempty].
  split.
  - destruct (Hstored (JList []) eq_refl) as (resp & Hrun & _). eauto.
  - exact (Hempty eq_refl).
Defined.

Lemma put_then_inprogress_witness :
  exists next w1 w2,
    run (do_PUT decimal_int_of_str "/api/doc"
           (update (JInt 0) (JDict loose_tasks))) seeded_world =
      (Ok (JsonResponse 200 next), w1) /\
    is_document next (0 + 1) at_1 (JDict loose_tasks) /\
    run (do_GET no_static_files "/api/tasks/inprogress") w1 =
      (Ok (JsonResponse 200
             (JList (List.filter in_progress
                       [ task_zero; task_text; task_null; task_blank; task_a ]))),
       w2) /\
    doc_file w2 = Some (Json next).
Proof.
  refine (put_then_inprogress decimal_int_of_str no_static_files seeded_world
            (seed at_0) (update_fields (JInt 0) (JDict loose_tasks)) loose_tasks
            (JInt 0) 0
            [ task_zero; task_text; task_null; task_blank; task_a ]
            eq_refl eq_refl eq_refl eq_refl eq_refl eq_refl eq_refl _).
  repeat constructor.
Defined.




Lemma stored_document_shape_witness :
  let rqs :=
    [ ProposeUpdate (update (JInt 0) (JDict loose_tasks));
      GetInProgress;
      ProposeUpdate (BodyJson (JList []));
      ProposeUpdate (update (JBool true) (JDict surrogate_tasks));
      GetDocument ] in
  (exists stored r t' d,
     doc_file (snd (serve_all decimal_int_of_str no_static_files rqs seeded_world))
     = Some (Json stored) /\ is_document stored r t' (JDict d)) /\
  (tmp_file (snd (serve_all decimal_int_of_str no_static_files rqs seeded_world))
   = None \/
   tmp_file (snd (serve_all decimal_int_of_str no_static_files rqs seeded_world))
   = Some Truncated).
Proof.
  cbv zeta.
  destruct (stored_document_shape decimal_int_of_str no_static_files
              [ ProposeUpdate (update (JInt 0) (JDict loose_tasks));
                GetInProgress;
                ProposeUpdate (BodyJson (JList []));
                ProposeUpdate (update (JBool true) (JDict surrogate_tasks));
                GetDocument ]
              seeded_world at_0 eq_refl eq_refl) as (Hdoc & Htmp & _).
  split; [exact Hdoc | exact Htmp].
Defined.

Lemma timestamp_determines_second_witness :
  isoformat_seconds (sample_clock 1) = isoformat_seconds (sample_clock 61) <->
  same_second (sample_clock 1) (sample_clock 61).
Proof.
  refine (proj2 (timestamp_determines_second (sample_clock 1) (sample_clock 61)
                   _ _));
    vm_compute; repeat split; discriminate.
Defined.

(** ** Every write is accounted for *)

Section Writes.

Variable int_of_str : string -> option Z.
Variable serve_static_file : string -> prog response.

Lemma serve_step_writes (rq : request) (w : world) (r : Z) (t : string)
    (d : gmap string json) :
  doc_file w = Some (Json (document r t (JDict d))) ->
  exists resp w' r' t' d',
    run (serve int_of_str serve_static_file rq) w = (Ok resp, w') /\
    doc_file w' = Some (Json (document r' t' (JDict d'))) /\
    replaces (fs_log w') =
      (replaces (fs_log w) + if accepted (rq, Ok resp) then 1 else 0)%nat.
Proof.
  intros Hcur. destruct rq as [| req |].
  - destruct (run_handle_errors handle_get_doc w) as (resp & Hrun & _).
    change (serve int_of_str serve_static_file GetDocument)
      with (handle_errors handle_get_doc).
    rewrite Hrun, (run_handle_get_doc_present w _ Hcur). cbn [snd].
    exists resp. do 4 eexists. split; [reflexivity |]. split; [exact Hcur |].
    simpl. rewrite replaces_app. reflexivity.
  - change (serve int_of_str serve_static_file (ProposeUpdate req))
      with (do_PUT int_of_str "/api/doc" req).
    destruct (do_PUT_outcome int_of_str w _ req Hcur)
      as (resp & w' & Hrun &
          [(r' & m' & d' & _ & _ & _ & _ & -> & Hdoc & _ & Hlog)
          | [(Hst & ->) | (r' & m' & d' & _ & _ & _ & _ & -> & ->)]]).
    + do 5 eexists. split; [exact Hrun |]. split; [exact Hdoc |].
      rewrite Hlog, replaces_app. reflexivity.
    + exists resp. do 4 eexists. split; [exact Hrun |]. split; [exact Hcur |].
      assert (Hacc : accepted (ProposeUpdate req, Ok resp) = false).
      { destruct resp as [st payload | st text]; [| reflexivity].
        simpl in Hst. destruct Hst as [-> | [-> | ->]]; reflexivity. }
      rewrite Hacc. simpl. rewrite replaces_app. reflexivity.
    + do 5 eexists. split; [exact Hrun |]. split; [reflexivity |].
      simpl. rewrite replaces_app. reflexivity.
  - change (serve int_of_str serve_static_file GetInProgress)
      with (do_GET serve_static_file "/api/tasks/inprogress").
    rewrite (run_get_inprogress serve_static_file w _ Hcur).
    match goal with
    | |- context [ run (handle_errors ?m) ?w1 ] =>
        destruct (run_handle_errors m w1) as (resp & Hrun & _); rewrite Hrun
    end.
    rewrite run_lift. cbn [snd].
    exists resp. do 4 eexists. split; [reflexivity |]. split; [exact Hcur |].
    simpl. rewrite replaces_app. reflexivity.
Qed.

(** X21. Every write is accounted for.  After [main] has seeded an empty
    store, [os.replace] has run once; from then on, for requests served one
    after the other, it runs once for each accepted propose-update and never
    otherwise, and the store is never empty again. *)
Theorem writes_are_accepted_updates (rqs : list request) (w : world) :
  doc_file w = None ->
  let w0 := snd (run startup w) in
  let log := fst (serve_all int_of_str serve_static_file rqs w0) in
  let w' := snd (serve_all int_of_str serve_static_file rqs w0) in
  replaces (fs_log w0) = S (replaces (fs_log w)) /\
  replaces (fs_log w') = (replaces (fs_log w0) + accepted_writes log)%nat /\
  doc_file w' <> None.
Proof.
  intros Hnone. unfold startup.
  rewrite (run_ensure_seed_doc_absent w Hnone). cbn [snd].
  set (w0 := World _ _ _ _ _).
  split.
  { simpl. rewrite replaces_app. unfold replaces at 2. simpl. lia. }
  assert (Hgen : forall rqs w r t d,
    doc_file w = Some (Json (document r t (JDict d))) ->
    replaces (fs_log (snd (serve_all int_of_str serve_static_file rqs w))) =
      (replaces (fs_log w) +
       accepted_writes (fst (serve_all int_of_str serve_static_file rqs w)))%nat /\
    doc_file (snd (serve_all int_of_str serve_static_file rqs w)) <> None).
  { clear. induction rqs as [| rq rqs IH]; intros w r t d Hcur.
    - simpl. unfold accepted_writes. simpl. rewrite Hcur. split; [lia | discriminate].
    - destruct (serve_step_writes rq w r t d Hcur)
        as (resp & w1 & r1 & t1 & d1 & Hrun & Hcur1 & Hcount).
      cbn [serve_all]. rewrite Hrun.
      specialize (IH w1 r1 t1 d1 Hcur1).
      destruct (serve_all int_of_str serve_static_file rqs w1) as [log w2].
      cbn [fst snd] in *. destruct IH as [IH Hsome].
      split; [| exact Hsome].
      rewrite IH, Hcount. unfold accepted_writes. cbn [List.filter].
      destruct (accepted (rq, Ok resp)); simpl; lia. }
  exact (Hgen rqs w0 0 _ _ eq_refl).
Qed.

End Writes.

Lemma writes_are_accepted_updates_witness :
  let rqs :=
    [ GetDocument;
      ProposeUpdate (update (JInt 0) (JDict one_task));
      ProposeUpdate (update (JInt 0) (JDict no_tasks));
      GetInProgress;
      ProposeUpdate (update (JInt 1) (JDict no_tasks)) ] in
  let w0 := snd (run startup empty_world) in
  replaces (fs_log w0) = 1%nat /\
  replaces (fs_log (snd (serve_all decimal_int_of_str no_static_files rqs w0))) =
    (replaces (fs_log w0) +
     accepted_writes (fst (serve_all decimal_int_of_str no_static_files rqs w0)))%nat.
Proof.
  cbv zeta.
  destruct (writes_are_accepted_updates decimal_int_of_str no_static_files
              [ GetDocument;
                ProposeUpdate (update (JInt 0) (JDict one_task));
                ProposeUpdate (update (JInt 0) (JDict no_tasks));
                GetInProgress;
                ProposeUpdate (update (JInt 1) (JDict no_tasks)) ]
              empty_world eq_refl) as (H0 & Hcount & _).
  split; [exact H0 | exact Hcount].
Defined.
